(** * CFPS Weather & NOTAM Fetcher: a shallow embedding of CFPS_WEATHER_NOTAM.PY

    The script asks the NAV CANADA CFPS endpoint for the reports of each
    airport code, buckets the returned records by their [type] field,
    joins the METAR, TAF and NOTAM texts and shows one row per airport.

    Python values that travel through the script are JSON values; Python
    exceptions are an explicit error type threaded by a small error monad;
    the Streamlit calls are recorded as a log of events.  The JSON decoder,
    the network, the pandas readers and writer and the Unicode-aware
    [str.upper] and [str.strip] are library code: the script is modelled
    over arbitrary ones (Section variables); a reference decoder and ASCII
    versions of the two str methods are given so that the examples run on
    concrete texts. *)

From Stdlib Require Import List String Ascii ZArith QArith Bool Lia Permutation.
Import ListNotations.
Close Scope Q_scope.
Open Scope string_scope.
Open Scope list_scope.

(** ** JSON values, as json.loads builds them

    A JSON object becomes a dict: an association list whose lookup takes the
    first binding of a key (decoders return objects without repeated keys).
    A float is represented by its exact value; NaN and the infinities, which
    JSON proper does not have, are left out. *)

#[local] Unset Elimination Schemes.
Inductive json : Type :=
| JNull
| JBool (b : bool)
| JInt (z : Z)
| JFloat (q : Q)
| JStr (s : string)
| JList (l : list json)
| JDict (kv : list (string * json)).
#[local] Set Elimination Schemes.

(** ** Exceptions and the error monad *)

Inductive exn : Type :=
| ConnectionError                (* requests.get could not obtain a response *)
| HTTPError (status : Z)         (* response.raise_for_status *)
| JSONDecodeError                (* json.loads / response.json *)
| KeyError (k : json)            (* d[k] on a dict without k *)
| TypeError                      (* wrong kind of operand *)
| AttributeError                 (* method missing on the value *)
| ReadError.                     (* pandas could not read the upload *)

Inductive res (A : Type) : Type :=
| Ok (a : A)
| Raise (e : exn).
Arguments Ok {A} a.
Arguments Raise {A} e.

Definition bind {A B : Type} (m : res A) (f : A -> res B) : res B :=
  match m with
  | Ok a => f a
  | Raise e => Raise e
  end.

Notation "x <- m ;; k" := (bind m (fun x => k))
  (at level 61, m at next level, right associativity).

(** [try: m except: h] of Python, with a bare [except] clause. *)
Definition try_except {A : Type} (m : res A) (h : res A) : res A :=
  match m with
  | Ok a => Ok a
  | Raise _ => h
  end.

Definition succeeded {A : Type} (m : res A) : bool :=
  match m with Ok _ => true | Raise _ => false end.

Fixpoint mapM {A B : Type} (f : A -> res B) (l : list A) : res (list B) :=
  match l with
  | [] => Ok []
  | a :: l' => b <- f a ;; bs <- mapM f l' ;; Ok (b :: bs)
  end.

Fixpoint assoc (k : string) (kv : list (string * json)) : option json :=
  match kv with
  | [] => None
  | (k', v) :: kv' => if String.eqb k' k then Some v else assoc k kv'
  end.

(** [v[k]] for a string subscript [k]. *)
Definition py_getitem (v : json) (k : string) : res json :=
  match v with
  | JDict kv =>
      match assoc k kv with
      | Some x => Ok x
      | None => Raise (KeyError (JStr k))
      end
  | _ => Raise TypeError
  end.

(** [v.get(k, default)]: only dicts have the method. *)
Definition py_get (v : json) (k : string) (default : json) : res json :=
  match v with
  | JDict kv =>
      match assoc k kv with
      | Some x => Ok x
      | None => Ok default
      end
  | _ => Raise AttributeError
  end.

Fixpoint chars (s : string) : list json :=
  match s with
  | EmptyString => []
  | String c s' => JStr (String c EmptyString) :: chars s'
  end.

(** The sequence a [for] loop runs over. *)
Definition py_iter (v : json) : res (list json) :=
  match v with
  | JList l => Ok l
  | JDict kv => Ok (map (fun p => JStr (fst p)) kv)
  | JStr s => Ok (chars s)
  | _ => Raise TypeError
  end.

Definition as_str (v : json) : res string :=
  match v with
  | JStr s => Ok s
  | _ => Raise TypeError
  end.

(** [sep.join(l)]: every element has to be a str. *)
Definition py_join (sep : string) (l : list json) : res string :=
  ss <- mapM as_str l ;; Ok (String.concat sep ss).

(** ** Dict keys: hashing and equality

    Lists and dicts are unhashable.  Among hashable values Python compares
    numbers by value ([True == 1 == 1.0]); strings and [None] are equal only
    to themselves. *)

Definition hashable (v : json) : bool :=
  match v with
  | JList _ | JDict _ => false
  | _ => true
  end.

Definition num_of (v : json) : option Q :=
  match v with
  | JBool b => Some (if b then 1%Q else 0%Q)
  | JInt z => Some (inject_Z z)
  | JFloat q => Some q
  | _ => None
  end.

Definition key_eqb (a b : json) : bool :=
  match a, b with
  | JNull, JNull => true
  | JStr s, JStr t => String.eqb s t
  | _, _ =>
      match num_of a, num_of b with
      | Some p, Some q => Qeq_bool p q
      | _, _ => false
      end
  end.

(** The dict [organized]: bindings in insertion order, keys pairwise
    different under [key_eqb]. *)
Definition organized_t : Type := list (json * list json).

Fixpoint dict_get (k : json) (d : organized_t) : option (list json) :=
  match d with
  | [] => None
  | (k', b) :: d' => if key_eqb k' k then Some b else dict_get k d'
  end.

Definition dict_contains (k : json) (d : organized_t) : bool :=
  match dict_get k d with Some _ => true | None => false end.

(** [d[k] = b]: the binding of an equal key is overwritten in place, a new
    key goes to the end. *)
Fixpoint dict_set (k : json) (b : list json) (d : organized_t) : organized_t :=
  match d with
  | [] => [(k, b)]
  | (k', b') :: d' =>
      if key_eqb k' k then (k', b) :: d' else (k', b') :: dict_set k b d'
  end.

(** [d.get(k, [])]. *)
Definition dict_get_default (k : json) (d : organized_t) : list json :=
  match dict_get k d with Some b => b | None => [] end.

(** ** get_cfps_data: the bucketing loop (lines 35-41) *)

(** One turn of [for item in data["data"]]. *)
Definition organize_step (organized : organized_t) (item : json)
  : res organized_t :=
  typ <- py_getitem item "type" ;;
  if hashable typ then
    let organized1 :=
      if negb (dict_contains typ organized)
      then dict_set typ [] organized
      else organized in
    match dict_get typ organized1 with
    | Some bucket => Ok (dict_set typ (bucket ++ [item]) organized1)
    | None => Raise (KeyError typ)
    end
  else Raise TypeError.

Fixpoint organize_loop (items : list json) (organized : organized_t)
  : res organized_t :=
  match items with
  | [] => Ok organized
  | item :: rest =>
      organized' <- organize_step organized item ;;
      organize_loop rest organized'
  end.

Definition organize (items : list json) : res organized_t :=
  organize_loop items [].

(** ** str methods used by the script *)

Definition nl : string := String "010" EmptyString.

(** [str.upper] and [str.strip] on ASCII text, where they touch the letters
    a to z and the whitespace below only; the examples use them on such
    text.  On other text Python follows the Unicode tables. *)

Definition upper_char (c : ascii) : ascii :=
  let n := nat_of_ascii c in
  if (97 <=? n)%nat && (n <=? 122)%nat then ascii_of_nat (n - 32) else c.

Fixpoint ascii_upper (s : string) : string :=
  match s with
  | EmptyString => EmptyString
  | String c s' => String (upper_char c) (ascii_upper s')
  end.

(** Tab to carriage return, the four separators 28-31 and the space. *)
Definition is_space (c : ascii) : bool :=
  let n := nat_of_ascii c in
  ((9 <=? n)%nat && (n <=? 13)%nat) || ((28 <=? n)%nat && (n <=? 32)%nat).

Fixpoint lstrip (s : string) : string :=
  match s with
  | String c s' => if is_space c then lstrip s' else s
  | EmptyString => EmptyString
  end.

Fixpoint rstrip (s : string) : string :=
  match s with
  | EmptyString => EmptyString
  | String c s' =>
      match rstrip s' with
      | EmptyString => if is_space c then EmptyString else String c EmptyString
      | r => String c r
      end
  end.

Definition ascii_strip (s : string) : string := rstrip (lstrip s).

Fixpoint drop (n : nat) (s : string) : string :=
  match n, s with
  | S n', String _ s' => drop n' s'
  | _, _ => s
  end.

(** [s.endswith(suffix)] *)
Definition endswith (s suffix : string) : bool :=
  (String.length suffix <=? String.length s)%nat
  && String.eqb (drop (String.length s - String.length suffix) s) suffix.

(** ** A reference decoder for json.loads

    It follows the grammar CPython's decoder accepts in strict mode: the four
    whitespace characters, [null]/[true]/[false], numbers
    (an optional minus, an integer part without leading zeros, an optional
    fraction, an optional exponent), strings with the
    two-character escapes, arrays and objects, a repeated key keeping its
    last value.  Outside its scope, and refused: the constants [NaN] and
    [Infinity], and [\u] escapes beyond ASCII.  A number with a fraction or
    an exponent is decoded to its exact decimal value. *)

Definition is_json_ws (c : ascii) : bool :=
  match nat_of_ascii c with
  | 32 | 9 | 10 | 13 => true
  | _ => false
  end%nat.

Fixpoint skip_ws (s : string) : string :=
  match s with
  | String c s' => if is_json_ws c then skip_ws s' else s
  | EmptyString => EmptyString
  end.

Definition digit_of (c : ascii) : option Z :=
  let n := nat_of_ascii c in
  if (48 <=? n)%nat && (n <=? 57)%nat then Some (Z.of_nat (n - 48)) else None.

(** A maximal run of digits read onto [acc]: value, number of digits, rest. *)
Fixpoint digits (s : string) (acc : Z) (len : nat) : Z * nat * string :=
  match s with
  | String c s' =>
      match digit_of c with
      | Some d => digits s' (10 * acc + d)%Z (S len)
      | None => (acc, len, s)
      end
  | EmptyString => (acc, len, s)
  end.

Definition parse_number (s : string) : option (json * string) :=
  let (sign, s1) :=
    match s with
    | String "-" s' => ((-1)%Z, s')
    | _ => (1%Z, s)
    end in
  match s1 with
  | EmptyString => None
  | String c s2 =>
      match digit_of c with
      | None => None
      | Some d =>
          let '(i, _, s3) :=
            if (d =? 0)%Z then (0%Z, 1%nat, s2) else digits s2 d 1 in
          let '(has_frac, m, k, s4) :=
            match s3 with
            | String "." s' =>
                match digits s' i 0 with
                | (_, O, _) => (false, i, O, s3)
                | (m, k, r) => (true, m, k, r)
                end
            | _ => (false, i, O, s3)
            end in
          let '(has_exp, e, s5) :=
            match s4 with
            | String x s' =>
                if (x =? "e")%char || (x =? "E")%char then
                  let (esign, s'') :=
                    match s' with
                    | String "-" r => ((-1)%Z, r)
                    | String "+" r => (1%Z, r)
                    | _ => (1%Z, s')
                    end in
                  match digits s'' 0 0 with
                  | (_, O, _) => (false, 0%Z, s4)
                  | (e, _, r) => (true, (esign * e)%Z, r)
                  end
                else (false, 0%Z, s4)
            | EmptyString => (false, 0%Z, s4)
            end in
          if has_frac || has_exp
          then Some (JFloat (Qred (inject_Z (sign * m)
                                   * Qpower (inject_Z 10) (e - Z.of_nat k))), s5)
          else Some (JInt (sign * i), s5)
      end
  end.

Definition hex_of (c : ascii) : option nat :=
  let n := nat_of_ascii c in
  if (48 <=? n)%nat && (n <=? 57)%nat then Some (n - 48)%nat
  else if (97 <=? n)%nat && (n <=? 102)%nat then Some (n - 87)%nat
  else if (65 <=? n)%nat && (n <=? 70)%nat then Some (n - 55)%nat
  else None.

Definition unescape (c : ascii) : option ascii :=
  match nat_of_ascii c with
  | 34 => Some "034"%char     (* quotation mark *)
  | 92 => Some "\"%char
  | 47 => Some "/"%char
  | 98 => Some "008"%char     (* b *)
  | 102 => Some "012"%char    (* f *)
  | 110 => Some "010"%char    (* n *)
  | 114 => Some "013"%char    (* r *)
  | 116 => Some "009"%char    (* t *)
  | _ => None
  end%nat.

Definition cons_char (c : ascii) (r : option (string * string))
  : option (string * string) :=
  match r with
  | Some (s, rest) => Some (String c s, rest)
  | None => None
  end.

(** The body of a string literal, after its opening quotation mark. *)
Fixpoint parse_string (s : string) : option (string * string) :=
  match s with
  | EmptyString => None
  | String c s' =>
      if (c =? "034")%char then Some (EmptyString, s')
      else if (c =? "\")%char then
        match s' with
        | EmptyString => None
        | String e s'' =>
            if (e =? "u")%char then
              match s'' with
              | String h1 (String h2 (String h3 (String h4 r))) =>
                  match hex_of h1, hex_of h2, hex_of h3, hex_of h4 with
                  | Some a, Some b, Some c', Some d =>
                      let n := (((a * 16 + b) * 16 + c') * 16 + d)%nat in
                      if (n <? 128)%nat
                      then cons_char (ascii_of_nat n) (parse_string r)
                      else None
                  | _, _, _, _ => None
                  end
              | _ => None
              end
            else
              match unescape e with
              | Some x => cons_char x (parse_string s'')
              | None => None
              end
        end
      else if (nat_of_ascii c <? 32)%nat then None
      else cons_char c (parse_string s')
  end.

Fixpoint str_dict_set (k : string) (v : json) (kv : list (string * json))
  : list (string * json) :=
  match kv with
  | [] => [(k, v)]
  | (k', v') :: kv' =>
      if String.eqb k' k then (k', v) :: kv' else (k', v') :: str_dict_set k v kv'
  end.

Definition dict_of_pairs (kv : list (string * json)) : list (string * json) :=
  fold_left (fun d p => str_dict_set (fst p) (snd p) d) kv [].

Section Containers.
(** The decoder of one value, for the nesting depth that is left. *)
Variable parse_value : string -> option (json * string).

(** Array elements, from the first one to the closing bracket. *)
Fixpoint parse_elements (n : nat) (s : string) : option (list json * string) :=
  match n with
  | O => None
  | S n' =>
      match parse_value s with
      | None => None
      | Some (v, r) =>
          match skip_ws r with
          | String "]" r' => Some ([v], r')
          | String "," r' =>
              match parse_elements n' (skip_ws r') with
              | Some (vs, r'') => Some (v :: vs, r'')
              | None => None
              end
          | _ => None
          end
      end
  end.

(** Object members, from the first key to the closing brace. *)
Fixpoint parse_members (n : nat) (s : string)
  : option (list (string * json) * string) :=
  match n with
  | O => None
  | S n' =>
      match s with
      | String "034" s1 =>
          match parse_string s1 with
          | None => None
          | Some (k, r) =>
              match skip_ws r with
              | String ":" r1 =>
                  match parse_value (skip_ws r1) with
                  | None => None
                  | Some (v, r2) =>
                      match skip_ws r2 with
                      | String "}" r3 => Some ([(k, v)], r3)
                      | String "," r3 =>
                          match parse_members n' (skip_ws r3) with
                          | Some (kvs, r4) => Some ((k, v) :: kvs, r4)
                          | None => None
                          end
                      | _ => None
                      end
                  end
              | _ => None
              end
          end
      | _ => None
      end
  end.
End Containers.

Definition strip_prefix (p s : string) : option string :=
  if String.prefix p s then Some (drop (String.length p) s) else None.

Fixpoint parse_value (depth : nat) (s : string) : option (json * string) :=
  match depth with
  | O => None
  | S depth' =>
      match s with
      | EmptyString => None
      | String c r =>
          if (c =? "034")%char then
            match parse_string r with
            | Some (x, rest) => Some (JStr x, rest)
            | None => None
            end
          else if (c =? "{")%char then
            match skip_ws r with
            | String "}" rest => Some (JDict [], rest)
            | r0 =>
                match parse_members (parse_value depth') (String.length s) r0 with
                | Some (kvs, rest) => Some (JDict (dict_of_pairs kvs), rest)
                | None => None
                end
            end
          else if (c =? "[")%char then
            match skip_ws r with
            | String "]" rest => Some (JList [], rest)
            | r0 =>
                match parse_elements (parse_value depth') (String.length s) r0 with
                | Some (vs, rest) => Some (JList vs, rest)
                | None => None
                end
            end
          else
            match strip_prefix "null" s, strip_prefix "true" s,
                  strip_prefix "false" s with
            | Some rest, _, _ => Some (JNull, rest)
            | _, Some rest, _ => Some (JBool true, rest)
            | _, _, Some rest => Some (JBool false, rest)
            | _, _, _ => parse_number s
            end
      end
  end.

(** [json.loads(s)]; [None] stands for the exception it raises. *)
Definition json_loads_ref (s : string) : option json :=
  match parse_value (S (String.length s)) (skip_ws s) with
  | Some (v, rest) =>
      match skip_ws rest with
      | EmptyString => Some v
      | _ => None
      end
  | None => None
  end.

(** Example texts are written with an apostrophe where JSON has a quotation
    mark; [jtext] puts the quotation marks back. *)
Fixpoint jtext (s : string) : string :=
  match s with
  | EmptyString => EmptyString
  | String c s' => String (if (c =? "'")%char then "034"%char else c) (jtext s')
  end.

(** ** get_cfps_data: the query (lines 14-29) *)

Definition url : string := "https://plan.navcanada.ca/weather/api/alpha/".

(** A value of the dict [params]: a str or a list of str. *)
Inductive param_value : Type :=
| PStr (s : string)
| PList (l : list string).

Definition categories : list string :=
  ["sigmet"; "airmet"; "notam"; "metar"; "taf"; "pirep"; "upperwind";
   "space_weather"].

Definition params (icao : string) : list (string * param_value) :=
  [("site", PStr icao);
   ("alpha", PList categories);
   ("notam_choice", PStr "default");
   ("_", PStr "1756244240291")].

(** [for v in value: query_params.append((key, v))] *)
Fixpoint append_each (key : string) (value : list string)
    (query_params : list (string * string)) : list (string * string) :=
  match value with
  | [] => query_params
  | v :: value' => append_each key value' (query_params ++ [(key, v)])
  end.

(** [for key, value in params.items(): ...] *)
Fixpoint build_query (items : list (string * param_value))
    (query_params : list (string * string)) : list (string * string) :=
  match items with
  | [] => query_params
  | (key, value) :: rest =>
      build_query rest
        match value with
        | PList l => append_each key l query_params
        | PStr s => query_params ++ [(key, s)]
        end
  end.

Definition query_params (icao : string) : list (string * string) :=
  build_query (params icao) [].

(** ** The script over its libraries *)

Record response : Type := { status_code : Z; body : string }.

(** An element of [icao_list]: a str, or the NaN that [.str.upper()] of
    pandas leaves in the place of a cell that is not a str. *)
Inductive code : Type :=
| Str (s : string)
| NaN.

(** [str(icao)]: how the f-string of the warning and the query encoding of
    requests spell the code. *)
Definition py_str (icao : code) : string :=
  match icao with
  | Str s => s
  | NaN => "nan"
  end.

Record row : Type :=
  { ICAO : code; METAR : string; TAF : string; NOTAMs : string }.

Inductive error_msg : Type :=
| MissingColumn            (* Uploaded file must have a column named 'ICAO' *)
| ReadFailed (e : exn).    (* Error reading file: e *)

(** What the page shows, in the order of the Streamlit calls. *)
Inductive st_event : Type :=
| StError (m : error_msg)
| StWrite (airports : nat)            (* Fetching CFPS data for n airport(s)... *)
| StWarning (icao : code) (e : exn)   (* Failed to fetch data for icao: e *)
| StSubheader
| StDataframe (rows : list row)
| StDownloadButton (data : string)    (* the bytes of cfps_data.xlsx *)
| StException (e : exn).              (* nothing caught e: the run ends here *)

(** A cell of a column: missing, a str, or another value (a number, a
    boolean, a date). *)
Inductive cell : Type :=
| NA
| Text (s : string)
| Other.

(** A column: its cells and, for a column whose values are all of the
    other kind, the verdict of the [.str] accessor on them: pandas refuses
    a column of numbers, of booleans or of dates (Can only use .str accessor
    with string values) and takes a column of objects of several kinds. *)
Record series : Type := { cells : list cell; others_ok : bool }.

(** A DataFrame: its columns from left to right, names pairwise different. *)
Definition dataframe : Type := list (string * series).

Record uploaded : Type := { name : string; content : string }.

Fixpoint column (c : string) (df : dataframe) : option series :=
  match df with
  | [] => None
  | (c', col) :: df' => if String.eqb c' c then Some col else column c df'
  end.

(** [col.dropna()] *)
Fixpoint dropna (l : list cell) : list cell :=
  match l with
  | [] => []
  | NA :: l' => dropna l'
  | v :: l' => v :: dropna l'
  end.

Definition is_text (v : cell) : bool :=
  match v with Text _ => true | _ => false end.

(** Whether [col.dropna().str] is granted: always with a str among the
    values; without any value, for a column that has no row (it is read as
    a column of objects) and not for one whose cells are all missing (it is
    read as a column of numbers); else by the verdict on the others. *)
Definition accepts_str (col : series) : bool :=
  if existsb is_text (cells col) then true
  else
    match dropna (cells col), cells col with
    | [], [] => true
    | [], _ :: _ => false
    | _ :: _, _ => others_ok col
    end.

Definition nonempty (s : string) : bool :=
  match s with EmptyString => false | _ => true end.

Section Script.

(** json.loads on a str; [None] when it raises. *)
Variable json_loads : string -> option json.

(** requests.get: the outcome of the request issued after [n] earlier
    ones, for a URL and a list of query pairs. *)
Variable requests_get : nat -> string -> list (string * string) -> res response.

(** pandas.read_csv and pandas.read_excel on the uploaded bytes. *)
Variables read_csv read_excel : string -> res dataframe.

(** str.upper and str.strip. *)
Variables str_upper str_strip : string -> string.

(** DataFrame(results).to_excel(towrite, index=False, engine="openpyxl"):
    the bytes written, or the exception of the writer. *)
Variable to_excel : list row -> res string.

Definition raise_for_status (r : response) : res unit :=
  if ((400 <=? status_code r) && (status_code r <? 600))%Z
  then Raise (HTTPError (status_code r))
  else Ok tt.

Definition response_json (r : response) : res json :=
  match json_loads (body r) with
  | Some j => Ok j
  | None => Raise JSONDecodeError
  end.

Definition get_cfps_data (n : nat) (icao : string) : res organized_t :=
  r <- requests_get n url (query_params icao) ;;
  _ <- raise_for_status r ;;
  data <- response_json r ;;
  d <- py_getitem data "data" ;;
  items <- py_iter d ;;
  organize items.

(** *** The loop body (lines 80-97) *)

(** [[m["text"] for m in bucket]] *)
Definition texts (bucket : list json) : res (list json) :=
  mapM (fun m => py_getitem m "text") bucket.

Definition metar (data : organized_t) : res string :=
  ts <- texts (dict_get_default (JStr "metar") data) ;; py_join nl ts.

Definition taf (data : organized_t) : res string :=
  ts <- texts (dict_get_default (JStr "taf") data) ;; py_join nl ts.

(** [json.loads(v)]: a value that is not a str is a TypeError. *)
Definition py_json_loads (v : json) : res json :=
  match v with
  | JStr s =>
      match json_loads s with
      | Some j => Ok j
      | None => Raise JSONDecodeError
      end
  | _ => Raise TypeError
  end.

(** What one NOTAM record appends to [notams] (lines 85-89). *)
Definition notam_entry (n : json) : res json :=
  try_except
    (t <- py_getitem n "text" ;;
     notam_json <- py_json_loads t ;;
     py_get notam_json "raw" (JStr ""))
    (py_getitem n "text").

Definition notams (data : organized_t) : res (list json) :=
  mapM notam_entry (dict_get_default (JStr "notam") data).

Definition notam_text (data : organized_t) : res string :=
  l <- notams data ;; py_join (nl ++ nl)%string l.

(** The [try] block of one airport: the row it appends to [results].  The
    site of the query is the code as requests writes it, [str(icao)]. *)
Definition fetch_row (n : nat) (icao : code) : res row :=
  data <- get_cfps_data n (py_str icao) ;;
  m <- metar data ;;
  t <- taf data ;;
  nt <- notam_text data ;;
  Ok {| ICAO := icao; METAR := m; TAF := t; NOTAMs := nt |}.

(** [for icao in icao_list: try: ... except Exception as e: st.warning(...)],
    the [n]-th request of the run being the next one. *)
Fixpoint process_batch (n : nat) (icao_list : list code)
    (results : list row) (ui : list st_event) : list row * list st_event :=
  match icao_list with
  | [] => (results, ui)
  | icao :: rest =>
      match fetch_row n icao with
      | Ok r => process_batch (S n) rest (results ++ [r]) ui
      | Raise e => process_batch (S n) rest results (ui ++ [StWarning icao e])
      end
  end.

(** *** The list of codes (lines 46-72) *)

Definition read_upload (f : uploaded) : res dataframe :=
  if endswith (name f) ".csv" then read_csv (content f) else read_excel (content f).

(** [s.str.upper()] on one value that is not missing. *)
Definition upper_value (v : cell) : code :=
  match v with
  | Text s => Str (str_upper s)
  | _ => NaN
  end.

(** [df["ICAO"].dropna().str.upper().tolist()] *)
Definition upper_tolist (col : series) : res (list code) :=
  if accepts_str col
  then Ok (map upper_value (dropna (cells col)))
  else Raise AttributeError.

(** The [if uploaded_file:] block. *)
Definition extend_from_upload (f : uploaded) (icao_list : list code)
    (ui : list st_event) : list code * list st_event :=
  match read_upload f with
  | Ok df =>
      match column "ICAO" df with
      | Some col =>
          match upper_tolist col with
          | Ok codes => (icao_list ++ codes, ui)
          | Raise e => (icao_list, ui ++ [StError (ReadFailed e)])
          end
      | None => (icao_list, ui ++ [StError MissingColumn])
      end
  | Raise e => (icao_list, ui ++ [StError (ReadFailed e)])
  end.

Definition build_icao_list (text_input : string)
    (uploaded_file : option uploaded) : list code * list st_event :=
  let icao_input := str_strip (str_upper text_input) in
  let icao_list := if nonempty icao_input then [Str icao_input] else [] in
  match uploaded_file with
  | Some f => extend_from_upload f icao_list []
  | None => (icao_list, [])
  end.

(** *** One run of the script *)

Definition main (text_input : string) (uploaded_file : option uploaded)
  : list st_event :=
  let (icao_list, ui) := build_icao_list text_input uploaded_file in
  match icao_list with
  | [] => ui
  | _ :: _ =>
      let (results, ui') :=
        process_batch 0 icao_list [] (ui ++ [StWrite (List.length icao_list)]) in
      ui' ++ [StSubheader; StDataframe results]
          ++ match to_excel results with
             | Ok data => [StDownloadButton data]
             | Raise e => [StException e]
             end
  end.

End Script.

(** * Vocabulary of the statements *)

(** ** Buckets *)

(** [bucket_add t item d] is the dict in which [item] has joined the bucket
    of [t], a bucket that starts empty. *)
Definition bucket_add (t item : json) (d : organized_t) : organized_t :=
  dict_set t (dict_get_default t d ++ [item]) d.

Definition type_of (r : json) : res json := py_getitem r "type".

(** [r] is a dict whose [type] is hashable. *)
Definition typed (r : json) : bool :=
  match type_of r with
  | Ok t => hashable t
  | Raise _ => false
  end.

(** [r] is a dict whose [type] equals [k] as a key. *)
Definition type_is (k r : json) : bool :=
  match type_of r with
  | Ok t => key_eqb k t
  | Raise _ => false
  end.

Definition records (d : organized_t) : list json := List.concat (map snd d).

(** Every record of a bucket has the type of the bucket's key. *)
Definition homogeneous (d : organized_t) : Prop :=
  Forall (fun kb => Forall (fun r => type_is (fst kb) r = true) (snd kb)) d.

(** Keys are hashable and pairwise different. *)
Fixpoint distinct_keys (d : organized_t) : Prop :=
  match d with
  | [] => True
  | (k, _) :: d' => hashable k = true /\ dict_get k d' = None /\ distinct_keys d'
  end.

(** ** Texts *)

(** The record [r] has the str [s] for its [text]. *)
Definition has_text (r : json) (s : string) : Prop :=
  py_getitem r "text" = Ok (JStr s).

(** ** Query pairs *)

(** The pairs one entry of [params] stands for: one per element of a list,
    one for a str. *)
Definition pairs_of (p : string * param_value) : list (string * string) :=
  match snd p with
  | PList l => map (pair (fst p)) l
  | PStr s => [(fst p, s)]
  end.

Definition is_alpha (p : string * string) : bool := String.eqb (fst p) "alpha".

(** ** Replies the endpoint accepts *)

(** [d], the value under [data], is run over as [items]: a list, or an empty
    dict or an empty str, which have nothing to run over. *)
Definition iterated (d : json) (items : list json) : Prop :=
  d = JList items \/ (items = [] /\ (d = JDict [] \/ d = JStr "")).

Definition status_ok (r : response) : Prop :=
  (status_code r < 400 \/ 600 <= status_code r)%Z.

(** The request of [icao] is answered by a body holding the records
    [items]. *)
Definition served (json_loads : string -> option json)
    (requests_get : nat -> string -> list (string * string) -> res response)
    (n : nat) (icao : string) (items : list json) : Prop :=
  exists r top d,
    requests_get n url (query_params icao) = Ok r
    /\ status_ok r
    /\ json_loads (body r) = Some (JDict top)
    /\ assoc "data" top = Some d
    /\ iterated d items
    /\ Forall (fun x => typed x = true) items.

(** ** Batches *)

(** The codes of a batch with the number of the request each one issues. *)
Definition numbered (n : nat) (icao_list : list code) : list (nat * code) :=
  combine (seq n (List.length icao_list)) icao_list.

(** What the attempt on one numbered code adds to the results, and to the
    page. *)
Definition rows_of (f : nat -> code -> res row) (p : nat * code) : list row :=
  match f (fst p) (snd p) with
  | Ok r => [r]
  | Raise _ => []
  end.

Definition warnings_of (f : nat -> code -> res row) (p : nat * code)
  : list st_event :=
  match f (fst p) (snd p) with
  | Ok _ => []
  | Raise e => [StWarning (snd p) e]
  end.

(** The code of the text box: upper-cased and stripped, none when nothing
    is left. *)
Definition typed_codes (str_upper str_strip : string -> string)
    (text_input : string) : list code :=
  if nonempty (str_strip (str_upper text_input))
  then [Str (str_strip (str_upper text_input))]
  else [].

(** What follows the table: the download button with the written bytes, or
    the exception of the writer. *)
Definition export_events (to_excel : list row -> res string) (rows : list row)
  : list st_event :=
  match to_excel rows with
  | Ok data => [StDownloadButton data]
  | Raise e => [StException e]
  end.

(** The page of a run over one code, from the outcome of its attempt. *)
Definition page_of_one (attempt : res row) (to_excel : list row -> res string)
    (icao : code) : list st_event :=
  StWrite 1
  :: match attempt with
     | Ok r => [StSubheader; StDataframe [r]] ++ export_events to_excel [r]
     | Raise e =>
         [StWarning icao e; StSubheader; StDataframe []]
         ++ export_events to_excel []
     end.

(** The str [u] occurs as a code. *)
Definition is_code (u : string) (c : code) : bool :=
  match c with
  | Str s => String.eqb s u
  | NaN => false
  end.

(** The strs among cells. *)
Fixpoint strs (l : list cell) : list string :=
  match l with
  | [] => []
  | Text s :: l' => s :: strs l'
  | _ :: l' => strs l'
  end.

Definition is_error (e : st_event) : bool :=
  match e with StError _ => true | _ => false end.

(** ** An endpoint for the examples *)

(** The same reply to every request. *)
Definition reply (status : Z) (text : string)
  : nat -> string -> list (string * string) -> res response :=
  fun _ _ _ => Ok {| status_code := status; body := text |}.

Definition site_of (q : list (string * string)) : string :=
  match q with
  | (_, site) :: _ => site
  | [] => EmptyString
  end.

Definition cyyc_body : string :=
  jtext "{'meta': {}, 'data': [
     {'type': 'metar', 'text': 'METAR CYYC 011800Z 27010KT'},
     {'type': 'notam', 'text': '{\'raw\':\'A1234/23 RWY CLOSED\'}'},
     {'type': 'taf', 'text': 'TAF CYYC 011740Z'},
     {'type': 'metar', 'text': 'METAR CYYC 011700Z 26008KT'},
     {'type': 'notam', 'text': 'plain text'}]}".

(** CYYC is served, any other site is answered 404. *)
Definition cyyc_only : nat -> string -> list (string * string) -> res response :=
  fun _ _ q =>
    if String.eqb (site_of q) "CYYC"
    then Ok {| status_code := 200; body := cyyc_body |}
    else Ok {| status_code := 404; body := "Not Found" |}.

(** What the reference decoder makes of [cyyc_body]. *)
Definition cyyc_items : list json :=
  [JDict [("type", JStr "metar"); ("text", JStr "METAR CYYC 011800Z 27010KT")];
   JDict [("type", JStr "notam");
          ("text", JStr (jtext "{'raw':'A1234/23 RWY CLOSED'}"))];
   JDict [("type", JStr "taf"); ("text", JStr "TAF CYYC 011740Z")];
   JDict [("type", JStr "metar"); ("text", JStr "METAR CYYC 011700Z 26008KT")];
   JDict [("type", JStr "notam"); ("text", JStr "plain text")]].

Definition cyyc_top : list (string * json) :=
  [("meta", JDict []); ("data", JList cyyc_items)].

Definition cyyc_organized : organized_t :=
  [(JStr "metar",
    [JDict [("type", JStr "metar"); ("text", JStr "METAR CYYC 011800Z 27010KT")];
     JDict [("type", JStr "metar"); ("text", JStr "METAR CYYC 011700Z 26008KT")]]);
   (JStr "notam",
    [JDict [("type", JStr "notam");
            ("text", JStr (jtext "{'raw':'A1234/23 RWY CLOSED'}"))];
     JDict [("type", JStr "notam"); ("text", JStr "plain text")]]);
   (JStr "taf",
    [JDict [("type", JStr "taf"); ("text", JStr "TAF CYYC 011740Z")]])].

Definition cyyc_row : row :=
  {| ICAO := Str "CYYC";
     METAR := String.concat nl ["METAR CYYC 011800Z 27010KT";
                                "METAR CYYC 011700Z 26008KT"];
     TAF := "TAF CYYC 011740Z";
     NOTAMs := String.concat (nl ++ nl)%string
                 ["A1234/23 RWY CLOSED"; "plain text"] |}.

(** A body whose record has a list for its [type]. *)
Definition list_typed_record : json :=
  JDict [("type", JList [JStr "metar"]); ("text", JStr "METAR CYYC")].

Definition list_typed_body : string :=
  jtext "{'data': [{'type': ['metar'], 'text': 'METAR CYYC'}]}".

(** A body with an empty object, not a list, under [data]. *)
Definition no_list_body : string := jtext "{'data': {}}".

(** Three uploads: a table with an ICAO column, a table without one, and a
    table whose ICAO column was read with all its cells missing. *)
Definition icao_table : dataframe :=
  [("Name", {| cells := [Text "Calgary"; Text "nowhere"; Text "Vancouver";
                         Text "Calgary"];
               others_ok := false |});
   ("ICAO", {| cells := [Text "cyyc"; NA; Text "Cyvr"; Text "cyyc"];
               others_ok := false |})].

Definition other_table : dataframe :=
  [("Airport", {| cells := [Text "cyyc"; Text "cyvr"]; others_ok := false |})].

Definition blank_table : dataframe :=
  [("ICAO", {| cells := [NA; NA]; others_ok := false |})].

Definition reads (df : dataframe) : string -> res dataframe := fun _ => Ok df.

(** A writer for the examples. *)
Definition writes (data : string) : list row -> res string := fun _ => Ok data.

Definition codes_csv : uploaded := {| name := "codes.csv"; content := "" |}.

(** A NOTAM record whose text is a JSON object without [raw], and one whose
    text is a JSON list. *)
Definition notam_without_raw : json :=
  JDict [("type", JStr "notam"); ("text", JStr (jtext "{'id':'A1234/23'}"))].

Definition notam_list_text : json :=
  JDict [("type", JStr "notam"); ("text", JStr "[1, 2]")].

Definition notam_raw : json :=
  JDict [("type", JStr "notam");
         ("text", JStr (jtext "{'raw':'A1234/23 RWY CLOSED'}"))].

Definition notam_plain : json :=
  JDict [("type", JStr "notam"); ("text", JStr "plain text")].

Definition no_reader : string -> res dataframe := fun _ => Raise ReadError.

(** ** Further vocabulary *)

(** The records of the response whose [type] is the category [c]. *)
Definition of_type (c : string) (items : list json) : list json :=
  filter (type_is (JStr c)) items.

(** The codes the warnings of a page name, in order. *)
Fixpoint warned_codes (ui : list st_event) : list code :=
  match ui with
  | [] => []
  | StWarning icao _ :: ui' => icao :: warned_codes ui'
  | _ :: ui' => warned_codes ui'
  end.

(** A METAR record without [text], a NOTAM record whose [raw] is a number,
    and a body without records. *)
Definition metar_without_text : json := JDict [("type", JStr "metar")].

Definition notam_numeric_raw : json :=
  JDict [("type", JStr "notam"); ("text", JStr (jtext "{'raw': 5}"))].

Definition no_records_body : string := jtext "{'data': []}".

Definition taf_record : json :=
  JDict [("type", JStr "taf"); ("text", JStr "TAF CYYC 011740Z")].

Definition metar_without_text_body : string :=
  jtext "{'data': [{'type': 'taf', 'text': 'TAF CYYC 011740Z'},
                   {'type': 'metar'}]}".

(** * Properties *)

(** ** Key equality is an equivalence on hashable values *)

Lemma key_eqb_refl (k : json) : hashable k = true -> key_eqb k k = true.
Proof.
  destruct k as [| b | z | q | s | l | kv]; simpl; intros H;
    try discriminate; try reflexivity;
    try apply Qeq_bool_refl.
  apply String.eqb_refl.
Qed.

Lemma key_eqb_sym (a b : json) : key_eqb a b = key_eqb b a.
Proof.
  destruct a, b; simpl; try reflexivity;
    try apply Qeq_bool_comm.
  apply String.eqb_sym.
Qed.

Lemma key_eqb_trans (a b c : json) :
  key_eqb a b = true -> key_eqb b c = true -> key_eqb a c = true.
Proof.
  destruct a, b; simpl; try discriminate;
    destruct c; simpl; try discriminate; try reflexivity;
    try apply Qeq_bool_trans.
  intros H1 H2. apply String.eqb_eq in H1, H2. subst. apply String.eqb_refl.
Qed.

(** Equal keys are looked up alike. *)
Lemma key_eqb_congr (k t k' : json) :
  key_eqb k t = true -> key_eqb k' k = key_eqb k' t.
Proof.
  intros H.
  destruct (key_eqb k' k) eqn:E1, (key_eqb k' t) eqn:E2; try reflexivity.
  - rewrite (key_eqb_trans _ _ _ E1 H) in E2. discriminate.
  - rewrite key_eqb_sym in H.
    rewrite (key_eqb_trans _ _ _ E2 H) in E1. discriminate.
Qed.

Lemma dict_get_congr (k t : json) (d : organized_t) :
  key_eqb k t = true -> dict_get k d = dict_get t d.
Proof.
  intros H. induction d as [| [k' b] d IH]; simpl.
  - reflexivity.
  - rewrite (key_eqb_congr k t k' H), IH. reflexivity.
Qed.

(** ** The dict after [d[t] = b] *)

Lemma dict_get_set (k t : json) (b : list json) (d : organized_t) :
  dict_get k (dict_set t b d)
  = if key_eqb k t then Some b else dict_get k d.
Proof.
  induction d as [| [k' b'] d IH]; simpl.
  - rewrite (key_eqb_sym t k). destruct (key_eqb k t); reflexivity.
  - destruct (key_eqb k' t) eqn:Et; simpl.
    + destruct (key_eqb k t) eqn:Ekt.
      * rewrite (key_eqb_congr k t k' Ekt), Et. reflexivity.
      * destruct (key_eqb k' k) eqn:Ek; [| reflexivity].
        rewrite key_eqb_sym in Ek.
        rewrite (key_eqb_trans _ _ _ Ek Et) in Ekt. discriminate.
    + rewrite IH. destruct (key_eqb k' k) eqn:Ek; [| reflexivity].
      destruct (key_eqb k t) eqn:Ekt; [| reflexivity].
      rewrite (key_eqb_trans _ _ _ Ek Ekt) in Et. discriminate.
Qed.

Lemma dict_set_set (t : json) (b b' : list json) (d : organized_t) :
  hashable t = true ->
  dict_set t b (dict_set t b' d) = dict_set t b d.
Proof.
  intros Ht. induction d as [| [k' c] d IH]; simpl.
  - rewrite (key_eqb_refl t Ht). reflexivity.
  - destruct (key_eqb k' t) eqn:E; simpl; rewrite E; [reflexivity |].
    rewrite IH. reflexivity.
Qed.

Lemma organize_step_typed (d : organized_t) (item t : json) :
  type_of item = Ok t -> hashable t = true ->
  organize_step d item = Ok (bucket_add t item d).
Proof.
  unfold type_of, organize_step, bucket_add, dict_get_default, dict_contains.
  intros -> Ht. simpl. rewrite Ht.
  destruct (dict_get t d) as [b |] eqn:E; simpl.
  - rewrite E. reflexivity.
  - rewrite dict_get_set, (key_eqb_refl _ Ht), dict_set_set by assumption.
    reflexivity.
Qed.

Lemma organize_step_inv (d d' : organized_t) (item : json) :
  organize_step d item = Ok d' ->
  exists t, type_of item = Ok t /\ hashable t = true /\ d' = bucket_add t item d.
Proof.
  intros H. unfold organize_step in H.
  destruct (py_getitem item "type") as [t | e] eqn:Et; simpl in H;
    [| discriminate].
  destruct (hashable t) eqn:Ht; [| discriminate].
  exists t. repeat split; try assumption.
  pose proof (organize_step_typed d item t Et Ht) as H'.
  unfold organize_step in H'. rewrite Et in H'. simpl in H'. rewrite Ht in H'.
  congruence.
Qed.

Lemma organize_step_fails (d : organized_t) (item : json) :
  typed item = false -> exists e, organize_step d item = Raise e.
Proof.
  unfold typed, type_of, organize_step. intros H.
  destruct (py_getitem item "type") as [t | e]; simpl.
  - rewrite H. eexists; reflexivity.
  - eexists; reflexivity.
Qed.

Lemma get_bucket_add (k t item : json) (d : organized_t) :
  dict_get_default k (bucket_add t item d)
  = if key_eqb k t then dict_get_default k d ++ [item]
    else dict_get_default k d.
Proof.
  unfold bucket_add, dict_get_default. rewrite dict_get_set.
  destruct (key_eqb k t) eqn:E; [| reflexivity].
  rewrite (dict_get_congr k t d E). reflexivity.
Qed.

Lemma records_bucket_add (t item : json) (d : organized_t) :
  Permutation (records (bucket_add t item d)) (records d ++ [item]).
Proof.
  unfold bucket_add, dict_get_default, records.
  induction d as [| [k' b] d IH]; simpl.
  - reflexivity.
  - destruct (key_eqb k' t); simpl.
    + rewrite <- !app_assoc. apply Permutation_app_head.
      apply Permutation_app_comm.
    + rewrite <- app_assoc. apply Permutation_app_head. exact IH.
Qed.

Lemma homogeneous_bucket_add (t item : json) (d : organized_t) :
  type_of item = Ok t -> hashable t = true ->
  homogeneous d -> homogeneous (bucket_add t item d).
Proof.
  intros Et Ht. unfold homogeneous, bucket_add, dict_get_default.
  induction d as [| [k' b] d IH]; simpl; intros H.
  - constructor; [| constructor]. simpl. constructor; [| constructor].
    unfold type_is. rewrite Et. apply key_eqb_refl, Ht.
  - inversion H as [| ? ? Hb Hd]; subst. simpl in Hb.
    destruct (key_eqb k' t) eqn:E.
    + constructor; [| assumption]. simpl.
      apply Forall_app. split; [assumption |].
      constructor; [| constructor]. unfold type_is. rewrite Et. exact E.
    + constructor; [assumption |]. apply IH. assumption.
Qed.

(** ** The whole loop *)

Lemma organize_loop_typed (items : list json) :
  Forall (fun r => typed r = true) items ->
  forall d, exists d', organize_loop items d = Ok d'.
Proof.
  induction 1 as [| r items Hr _ IH]; intros d; simpl.
  - eexists; reflexivity.
  - unfold typed in Hr. destruct (type_of r) as [t |] eqn:Et; [| discriminate].
    rewrite (organize_step_typed d r t Et Hr). simpl. apply IH.
Qed.

Lemma organize_loop_inv (items : list json) :
  forall d d', organize_loop items d = Ok d' ->
  Forall (fun r => typed r = true) items.
Proof.
  induction items as [| r items IH]; simpl; intros d d' H.
  - constructor.
  - destruct (organize_step d r) as [d1 | e] eqn:E; simpl in H; [| discriminate].
    constructor; [| eapply IH; eassumption].
    destruct (organize_step_inv _ _ _ E) as (t & Et & Ht & _).
    unfold typed. rewrite Et. exact Ht.
Qed.

Lemma organize_loop_buckets (items : list json) :
  forall d d' k, organize_loop items d = Ok d' ->
  dict_get_default k d' = dict_get_default k d ++ filter (type_is k) items.
Proof.
  induction items as [| r items IH]; simpl; intros d d' k H.
  - injection H as <-. rewrite app_nil_r. reflexivity.
  - destruct (organize_step d r) as [d1 | e] eqn:E; simpl in H; [| discriminate].
    destruct (organize_step_inv _ _ _ E) as (t & Et & Ht & ->).
    rewrite (IH _ _ k H), get_bucket_add. unfold type_is at 2. rewrite Et.
    destruct (key_eqb k t); [rewrite <- app_assoc |]; reflexivity.
Qed.

Lemma organize_loop_records (items : list json) :
  forall d d', organize_loop items d = Ok d' ->
  Permutation (records d') (records d ++ items).
Proof.
  induction items as [| r items IH]; simpl; intros d d' H.
  - injection H as <-. rewrite app_nil_r. reflexivity.
  - destruct (organize_step d r) as [d1 | e] eqn:E; simpl in H; [| discriminate].
    destruct (organize_step_inv _ _ _ E) as (t & Et & Ht & ->).
    rewrite (IH _ _ H), records_bucket_add, <- app_assoc. reflexivity.
Qed.

Lemma organize_loop_homogeneous (items : list json) :
  forall d d', organize_loop items d = Ok d' ->
  homogeneous d -> homogeneous d'.
Proof.
  induction items as [| r items IH]; simpl; intros d d' H Hd.
  - injection H as <-. assumption.
  - destruct (organize_step d r) as [d1 | e] eqn:E; simpl in H; [| discriminate].
    destruct (organize_step_inv _ _ _ E) as (t & Et & Ht & ->).
    eapply IH; [eassumption |]. apply homogeneous_bucket_add; assumption.
Qed.

Lemma distinct_keys_bucket_add (t item : json) (d : organized_t) :
  hashable t = true -> distinct_keys d -> distinct_keys (bucket_add t item d).
Proof.
  intros Ht. unfold bucket_add.
  generalize (dict_get_default t d ++ [item]) as b.
  induction d as [| [k' b'] d IH]; simpl; intros b H.
  - auto.
  - destruct H as (Hk & Hnone & Hd).
    destruct (key_eqb k' t) eqn:E; simpl.
    + auto.
    + repeat split; auto. rewrite dict_get_set, E. exact Hnone.
Qed.


Lemma organize_loop_distinct (items : list json) :
  forall d d', organize_loop items d = Ok d' ->
  distinct_keys d -> distinct_keys d'.
Proof.
  induction items as [| r items IH]; simpl; intros d d' H Hd.
  - injection H as <-. assumption.
  - destruct (organize_step d r) as [d1 | e] eqn:E; simpl in H; [| discriminate].
    destruct (organize_step_inv _ _ _ E) as (t & Et & Ht & ->).
    eapply IH; [eassumption |]. apply distinct_keys_bucket_add; assumption.
Qed.

(** A value a loop would run over has only records if it is a list of them,
    or has nothing in it. *)
Lemma py_iter_typed (d : json) (items : list json) :
  py_iter d = Ok items /\ Forall (fun x => typed x = true) items
  <-> iterated d items /\ Forall (fun x => typed x = true) items.
Proof.
  unfold iterated. split.
  - intros [Hi Ht]. split; [| assumption].
    destruct d as [| b | z | q | s | l | kv]; simpl in Hi; try discriminate.
    + destruct s as [| c s]; simpl in Hi; injection Hi as <-.
      * right. auto.
      * inversion Ht; discriminate.
    + injection Hi as <-. left. reflexivity.
    + destruct kv as [| [k v] kv]; simpl in Hi; injection Hi as <-.
      * right. auto.
      * inversion Ht; discriminate.
  - intros [[-> | [-> [-> | ->]]] Ht]; split; auto.
Qed.

Section Fetching.

Variable json_loads : string -> option json.
Variable requests_get : nat -> string -> list (string * string) -> res response.

Local Abbreviation fetch := (get_cfps_data json_loads requests_get).
Local Abbreviation served_by := (served json_loads requests_get).

Lemma raise_for_status_ok (r : response) :
  raise_for_status r = Ok tt <-> status_ok r.
Proof.
  unfold raise_for_status, status_ok.
  destruct (400 <=? status_code r)%Z eqn:E1,
           (status_code r <? 600)%Z eqn:E2; simpl; split;
    try discriminate; try reflexivity; lia.
Qed.

Lemma get_cfps_data_served (n : nat) (icao : string) (items : list json) :
  served_by n icao items -> fetch n icao = organize items.
Proof.
  intros (r & top & d & Hr & Hs & Hj & Hd & Hi & Ht).
  unfold get_cfps_data. rewrite Hr. simpl.
  apply raise_for_status_ok in Hs. rewrite Hs. simpl.
  unfold response_json. rewrite Hj. simpl. rewrite Hd. simpl.
  destruct (proj2 (py_iter_typed d items) (conj Hi Ht)) as [-> _].
  reflexivity.
Qed.

Lemma get_cfps_data_inv (n : nat) (icao : string) (org : organized_t) :
  fetch n icao = Ok org ->
  exists items, served_by n icao items /\ organize items = Ok org.
Proof.
  unfold get_cfps_data, served. intros H.
  destruct (requests_get n url (query_params icao)) as [r |]; [| discriminate].
  simpl in H.
  destruct (raise_for_status r) as [[] |] eqn:Hs; [| discriminate].
  apply raise_for_status_ok in Hs. simpl in H.
  unfold response_json in H.
  destruct (json_loads (body r)) as [data |] eqn:Hj; [| discriminate].
  simpl in H.
  destruct data as [| | | | | | top]; try discriminate. simpl in H.
  destruct (assoc "data" top) as [d |] eqn:Hd; [| discriminate]. simpl in H.
  destruct (py_iter d) as [items |] eqn:Hi; [| discriminate]. simpl in H.
  pose proof (organize_loop_inv items [] org H) as Ht.
  exists items. split; [| exact H].
  exists r, top, d. repeat split; try assumption; try reflexivity.
  apply (proj1 (py_iter_typed d items) (conj Hi Ht)).
Qed.

(** C3.  When the request is answered with a success status by a body that
    decodes to an object with a list under [data], each element of which is
    an object carrying a [type] that names its category (a string; any
    hashable value, a number, a boolean or null, does as well),
    get_cfps_data returns a mapping in
    which every record sits in the bucket looked up by its [type], every
    bucket holds only records of its key's type, keys are pairwise
    different, and the records of all buckets together are a permutation of
    the records of the response: none dropped, none duplicated. *)
Theorem organize_keeps_every_record
    (n : nat) (icao : string) (r : response)
    (top : list (string * json)) (items : list json) :
  requests_get n url (query_params icao) = Ok r ->
  status_ok r ->
  json_loads (body r) = Some (JDict top) ->
  assoc "data" top = Some (JList items) ->
  Forall (fun x => typed x = true) items ->
  exists org,
    fetch n icao = Ok org
    /\ (forall x t, In x items -> type_of x = Ok t ->
                    In x (dict_get_default t org))
    /\ homogeneous org
    /\ distinct_keys org
    /\ Permutation (records org) items.
Proof.
  intros Hr Hs Hj Hd Ht.
  assert (Hserved : served_by n icao items).
  { exists r, top, (JList items). unfold iterated. auto 10. }
  rewrite (get_cfps_data_served n icao items Hserved).
  destruct (organize_loop_typed items Ht []) as [org Horg].
  exists org. split; [exact Horg |]. repeat split.
  - intros x t Hin Hx.
    rewrite (organize_loop_buckets items [] org t Horg). simpl.
    apply filter_In. split; [assumption |].
    unfold type_is. rewrite Hx. apply key_eqb_refl.
    rewrite Forall_forall in Ht. specialize (Ht x Hin).
    unfold typed in Ht. rewrite Hx in Ht. exact Ht.
  - apply (organize_loop_homogeneous items [] org Horg). constructor.
  - apply (organize_loop_distinct items [] org Horg). exact I.
  - apply (organize_loop_records items [] org Horg).
Qed.

(** C5 (amended).  get_cfps_data fails exactly when the request is not
    [served]: the request itself raises, or the status is from 400 to 599,
    or the body is not valid JSON, or it does not decode to an object with a
    [data] key, or the value under [data] is neither a list nor an empty
    object nor an empty string, or one of its elements is not an object with
    a hashable [type].  A request that raises passes its exception on, a
    failure status gives an HTTPError, an undecodable body a
    JSONDecodeError.  A served request returns the organized mapping. *)
Theorem get_cfps_data_fails_exactly_when (n : nat) (icao : string) :
  ((exists e, fetch n icao = Raise e)
   <-> ~ (exists items, served_by n icao items))
  /\ (forall items, served_by n icao items ->
        exists org, fetch n icao = Ok org /\ organize items = Ok org)
  /\ (forall e, requests_get n url (query_params icao) = Raise e ->
        fetch n icao = Raise e)
  /\ (forall r, requests_get n url (query_params icao) = Ok r ->
        ~ status_ok r -> fetch n icao = Raise (HTTPError (status_code r)))
  /\ (forall r, requests_get n url (query_params icao) = Ok r ->
        status_ok r -> json_loads (body r) = None ->
        fetch n icao = Raise JSONDecodeError).
Proof.
  assert (Hok : forall items, served_by n icao items ->
            exists org, fetch n icao = Ok org /\ organize items = Ok org).
  { intros items Hs. rewrite (get_cfps_data_served n icao items Hs).
    destruct Hs as (r & top & d & _ & _ & _ & _ & _ & Ht).
    destruct (organize_loop_typed items Ht []) as [org Horg].
    exists org. split; exact Horg. }
  split; [| split; [exact Hok | split; [| split]]].
  - split.
    + intros [e He] [items Hs].
      destruct (Hok items Hs) as (org & Horg & _). congruence.
    + intros Hn. destruct (fetch n icao) as [org | e] eqn:E.
      * exfalso. apply Hn.
        destruct (get_cfps_data_inv n icao org E) as (items & Hs & _).
        exists items. exact Hs.
      * exists e. reflexivity.
  - intros e He. unfold get_cfps_data. rewrite He. reflexivity.
  - intros r Hr Hs. unfold get_cfps_data. rewrite Hr. simpl.
    unfold raise_for_status, status_ok in *.
    destruct (400 <=? status_code r)%Z eqn:E1,
             (status_code r <? 600)%Z eqn:E2; simpl; try reflexivity;
      exfalso; apply Hs; lia.
  - intros r Hr Hs Hj. unfold get_cfps_data. rewrite Hr. simpl.
    apply raise_for_status_ok in Hs. rewrite Hs. simpl.
    unfold response_json. rewrite Hj. reflexivity.
Qed.

End Fetching.



Lemma organize_keeps_every_record_witness :
  exists org,
    get_cfps_data json_loads_ref cyyc_only 0 "CYYC" = Ok org
    /\ (forall x t, In x cyyc_items -> type_of x = Ok t ->
                    In x (dict_get_default t org))
    /\ homogeneous org
    /\ distinct_keys org
    /\ Permutation (records org) cyyc_items.
Proof.
  apply (organize_keeps_every_record json_loads_ref cyyc_only 0 "CYYC"
           {| status_code := 200; body := cyyc_body |} cyyc_top cyyc_items).
  - reflexivity.
  - left. simpl. lia.
  - vm_compute. reflexivity.
  - reflexivity.
  - repeat constructor.
Defined.

(** C5, as stated, fails in both directions.  A body that is valid JSON
    without a list under [data] (an empty object is there) does not make
    get_cfps_data fail: the empty mapping is returned.  A body with a success
    status, valid JSON, a list under [data] and a [type] field in its element
    makes it fail, the field holding a list. *)
Lemma fetch_failure_counterexample :
  json_loads_ref no_list_body = Some (JDict [("data", JDict [])])
  /\ get_cfps_data json_loads_ref (reply 200 no_list_body) 0 "CYYC" = Ok []
  /\ json_loads_ref list_typed_body
     = Some (JDict [("data", JList [list_typed_record])])
  /\ type_of list_typed_record = Ok (JList [JStr "metar"])
  /\ get_cfps_data json_loads_ref (reply 200 list_typed_body) 0 "CYYC"
     = Raise TypeError.
Proof.
  repeat split; vm_compute; reflexivity.
Qed.

(** The request for CYYC of the example endpoint is served. *)
Example served_cyyc : served json_loads_ref cyyc_only 0 "CYYC" cyyc_items.
Proof.
  exists {| status_code := 200; body := cyyc_body |}, cyyc_top, (JList cyyc_items).
  split; [reflexivity |].
  split; [left; simpl; lia |].
  split; [vm_compute; reflexivity |].
  split; [reflexivity |].
  split; [left; reflexivity |].
  repeat constructor.
Qed.

(** ** Text extraction *)

Lemma mapM_Forall2 (f : json -> res json) (b : list json) (ss : list string) :
  Forall2 (fun r s => f r = Ok (JStr s)) b ss ->
  mapM f b = Ok (map JStr ss).
Proof.
  induction 1 as [| r s b ss Hr _ IH]; simpl.
  - reflexivity.
  - rewrite Hr, IH. reflexivity.
Qed.

Lemma py_join_strs (sep : string) (ss : list string) :
  py_join sep (map JStr ss) = Ok (String.concat sep ss).
Proof.
  unfold py_join.
  assert (H : mapM as_str (map JStr ss) = Ok ss).
  { induction ss as [| s ss IH]; simpl; [| rewrite IH]; reflexivity. }
  rewrite H. reflexivity.
Qed.

(** A join over a list one element of which does not give a str raises:
    the element itself raises, or an earlier one does, or the join meets a
    value that is not a str. *)
Lemma join_fails (f : json -> res json) (sep : string) (l : list json) (r : json) :
  In r l -> (forall s, f r <> Ok (JStr s)) ->
  exists e, (x <- mapM f l ;; py_join sep x) = Raise e.
Proof.
  intros Hin Hr. unfold py_join.
  assert (H : forall x, mapM f l = Ok x -> exists e, mapM as_str x = Raise e).
  { clear sep. induction l as [| a l IH]; simpl; intros x Hx; [contradiction |].
    destruct (f a) as [v |] eqn:Ea; simpl in Hx; [| discriminate].
    destruct (mapM f l) as [vs |] eqn:El; simpl in Hx; [| discriminate].
    injection Hx as <-. simpl.
    destruct v as [| | | | s | |]; simpl; try (eexists; reflexivity).
    destruct Hin as [-> | Hin]; [exfalso; apply (Hr s Ea) |].
    destruct (IH Hin vs eq_refl) as [e He]. rewrite He. eexists; reflexivity. }
  destruct (mapM f l) as [x |] eqn:E; simpl.
  - destruct (H x eq_refl) as [e He]. rewrite He. eexists; reflexivity.
  - eexists; reflexivity.
Qed.

Lemma bind_Ok {A B : Type} (a : A) (k : A -> res B) : bind (Ok a) k = k a.
Proof. reflexivity. Qed.

Lemma bind_raises {A B : Type} (m : res A) (k : A -> res B) :
  (exists e, m = Raise e) -> exists e, bind m k = Raise e.
Proof.
  intros [e ->]. exists e. reflexivity.
Qed.

Lemma bind_raises_later {A B : Type} (m : res A) (k : A -> res B) :
  (forall a, exists e, k a = Raise e) -> exists e, bind m k = Raise e.
Proof.
  intros H. destruct m as [a | e]; simpl; [apply H | eexists; reflexivity].
Qed.

Section Texts.

Variable json_loads : string -> option json.

Local Abbreviation entry := (notam_entry json_loads).

(** C1 (amended).  For a NOTAM record whose [text] is a str, the entry
    appended to [notams] is: the value of [raw] when the text decodes to an
    object that has the field; the empty string when it decodes to an object
    without it; the text itself when decoding fails.  Nothing raised by the
    decoding leaves the step: the step raises only when reading the record's
    own [text] raises, and then that exception, never a JSONDecodeError. *)
Theorem notam_entry_display (n : json) :
  (forall t, has_text n t ->
     (forall o v, json_loads t = Some (JDict o) -> assoc "raw" o = Some v ->
                  entry n = Ok v)
     /\ (forall o, json_loads t = Some (JDict o) -> assoc "raw" o = None ->
                   entry n = Ok (JStr ""))
     /\ (json_loads t = None -> entry n = Ok (JStr t)))
  /\ (forall e, entry n = Raise e ->
        py_getitem n "text" = Raise e /\ e <> JSONDecodeError).
Proof.
  unfold has_text, notam_entry. split.
  - intros t Ht. rewrite Ht. simpl. repeat split.
    + intros o v Hj Hraw. rewrite Hj. simpl. rewrite Hraw. reflexivity.
    + intros o Hj Hraw. rewrite Hj. simpl. rewrite Hraw. reflexivity.
    + intros Hj. rewrite Hj. reflexivity.
  - intros e H.
    assert (Hget : py_getitem n "text" = Raise e).
    { destruct (py_getitem n "text") as [t |] eqn:Et; simpl in H.
      - destruct (bind (py_json_loads json_loads t)
                       (fun notam_json => py_get notam_json "raw" (JStr "")));
          discriminate.
      - exact H. }
    split; [exact Hget |].
    intros ->. destruct n as [| | | | | | kv]; try discriminate.
    simpl in Hget. destruct (assoc "text" kv); discriminate.
Qed.

(** C9.  When the [text] of a NOTAM record decodes to a JSON value that is
    not an object, the call of [get] on it raises (AttributeError), the
    handler takes over, and the entry is the original text. *)
Theorem notam_non_object_falls_back (n : json) (t : string) (j : json) :
  has_text n t ->
  json_loads t = Some j ->
  (forall o, j <> JDict o) ->
  py_get j "raw" (JStr "") = Raise AttributeError
  /\ entry n = Ok (JStr t).
Proof.
  unfold has_text, notam_entry. intros Ht Hj Hno.
  assert (Hget : py_get j "raw" (JStr "") = Raise AttributeError).
  { destruct j as [| | | | | | o]; try reflexivity.
    exfalso. apply (Hno o). reflexivity. }
  split; [exact Hget |].
  rewrite Ht. simpl. rewrite Hj. simpl. rewrite Hget. reflexivity.
Qed.

(** C6 (amended).  For a category absent from the mapping the text is the
    empty string, and nothing is raised.  For a category present: when
    every record has a str for its [text], the METAR and TAF texts are the
    [text] fields joined by a newline; when every NOTAM record appends a str
    to [notams], the NOTAM text is these entries joined by two newlines.
    One record without a str for its text (METAR, TAF) or for its entry
    (NOTAM) makes the extraction of its category raise. *)
Theorem text_of_categories (data : organized_t) :
  (dict_get (JStr "metar") data = None -> metar data = Ok "")
  /\ (dict_get (JStr "taf") data = None -> taf data = Ok "")
  /\ (dict_get (JStr "notam") data = None -> notam_text json_loads data = Ok "")
  /\ (forall b ss, dict_get (JStr "metar") data = Some b ->
        Forall2 has_text b ss -> metar data = Ok (String.concat nl ss))
  /\ (forall b ss, dict_get (JStr "taf") data = Some b ->
        Forall2 has_text b ss -> taf data = Ok (String.concat nl ss))
  /\ (forall b ss, dict_get (JStr "notam") data = Some b ->
        Forall2 (fun r s => entry r = Ok (JStr s)) b ss ->
        notam_text json_loads data = Ok (String.concat (nl ++ nl)%string ss))
  /\ (forall b r, dict_get (JStr "metar") data = Some b -> In r b ->
        (forall s, ~ has_text r s) -> exists e, metar data = Raise e)
  /\ (forall b r, dict_get (JStr "taf") data = Some b -> In r b ->
        (forall s, ~ has_text r s) -> exists e, taf data = Raise e)
  /\ (forall b r, dict_get (JStr "notam") data = Some b -> In r b ->
        (forall s, entry r <> Ok (JStr s)) ->
        exists e, notam_text json_loads data = Raise e).
Proof.
  unfold metar, taf, notam_text, notams, texts, dict_get_default.
  repeat split.
  - intros ->. reflexivity.
  - intros ->. reflexivity.
  - intros ->. reflexivity.
  - intros b ss -> H.
    rewrite (mapM_Forall2 (fun m => py_getitem m "text") b ss H). simpl.
    apply py_join_strs.
  - intros b ss -> H.
    rewrite (mapM_Forall2 (fun m => py_getitem m "text") b ss H). simpl.
    apply py_join_strs.
  - intros b ss -> H.
    rewrite (mapM_Forall2 entry b ss H). simpl.
    apply py_join_strs.
  - intros b r -> Hin Hr.
    apply (join_fails (fun m => py_getitem m "text") nl b r Hin).
    intros s H. apply (Hr s H).
  - intros b r -> Hin Hr.
    apply (join_fails (fun m => py_getitem m "text") nl b r Hin).
    intros s H. apply (Hr s H).
  - intros b r -> Hin Hr.
    apply (join_fails entry (nl ++ nl)%string b r Hin Hr).
Qed.

End Texts.

Lemma notam_entry_display_witness :
  notam_entry json_loads_ref notam_raw = Ok (JStr "A1234/23 RWY CLOSED")
  /\ notam_entry json_loads_ref notam_without_raw = Ok (JStr "")
  /\ notam_entry json_loads_ref notam_plain = Ok (JStr "plain text").
Proof.
  split; [| split].
  - apply (proj1 (proj1 (notam_entry_display json_loads_ref notam_raw)
                    (jtext "{'raw':'A1234/23 RWY CLOSED'}") eq_refl)
             [("raw", JStr "A1234/23 RWY CLOSED")]); reflexivity.
  - apply (proj1 (proj2 (proj1 (notam_entry_display json_loads_ref notam_without_raw)
                    (jtext "{'id':'A1234/23'}") eq_refl))
             [("id", JStr "A1234/23")]); reflexivity.
  - apply (proj2 (proj2 (proj1 (notam_entry_display json_loads_ref notam_plain)
                    "plain text" eq_refl))); reflexivity.
Defined.

(** C1, as stated, fails: the text decodes to an object without [raw], and
    the entry is the empty string, not the original text. *)
Lemma notam_without_raw_counterexample :
  has_text notam_without_raw (jtext "{'id':'A1234/23'}")
  /\ json_loads_ref (jtext "{'id':'A1234/23'}")
     = Some (JDict [("id", JStr "A1234/23")])
  /\ assoc "raw" [("id", JStr "A1234/23")] = None
  /\ notam_entry json_loads_ref notam_without_raw = Ok (JStr "")
  /\ notam_entry json_loads_ref notam_without_raw
     <> Ok (JStr (jtext "{'id':'A1234/23'}")).
Proof.
  repeat split; try (vm_compute; reflexivity).
  vm_compute. discriminate.
Qed.

Lemma notam_non_object_falls_back_witness :
  py_get (JList [JInt 1; JInt 2]) "raw" (JStr "") = Raise AttributeError
  /\ notam_entry json_loads_ref notam_list_text = Ok (JStr "[1, 2]").
Proof.
  apply (notam_non_object_falls_back json_loads_ref notam_list_text "[1, 2]"
           (JList [JInt 1; JInt 2])).
  - reflexivity.
  - vm_compute. reflexivity.
  - intros o. discriminate.
Defined.

Lemma text_of_categories_witness :
  metar [] = Ok ""
  /\ taf [] = Ok ""
  /\ notam_text json_loads_ref [] = Ok ""
  /\ metar cyyc_organized
     = Ok (String.concat nl ["METAR CYYC 011800Z 27010KT";
                             "METAR CYYC 011700Z 26008KT"])
  /\ taf cyyc_organized = Ok (String.concat nl ["TAF CYYC 011740Z"])
  /\ notam_text json_loads_ref cyyc_organized
     = Ok (String.concat (nl ++ nl)%string ["A1234/23 RWY CLOSED"; "plain text"])
  /\ (exists e, metar [(JStr "metar", [metar_without_text])] = Raise e)
  /\ (exists e, taf [(JStr "taf", [taf_record; metar_without_text])] = Raise e)
  /\ (exists e, notam_text json_loads_ref [(JStr "notam", [notam_numeric_raw])]
                = Raise e).
Proof.
  pose proof (text_of_categories json_loads_ref []) as (H1 & H2 & H3 & _).
  pose proof (text_of_categories json_loads_ref cyyc_organized)
    as (_ & _ & _ & H4 & H5 & H6 & _).
  pose proof (text_of_categories json_loads_ref
                [(JStr "metar", [metar_without_text])])
    as (_ & _ & _ & _ & _ & _ & H7 & _).
  pose proof (text_of_categories json_loads_ref
                [(JStr "taf", [taf_record; metar_without_text])])
    as (_ & _ & _ & _ & _ & _ & _ & H8 & _).
  pose proof (text_of_categories json_loads_ref
                [(JStr "notam", [notam_numeric_raw])])
    as (_ & _ & _ & _ & _ & _ & _ & _ & H9).
  split; [apply H1; reflexivity |].
  split; [apply H2; reflexivity |].
  split; [apply H3; reflexivity |].
  split; [eapply H4; [reflexivity | repeat constructor] |].
  split; [eapply H5; [reflexivity | repeat constructor] |].
  split; [eapply H6; [reflexivity | repeat constructor] |].
  split; [| split].
  - apply (H7 [metar_without_text] metar_without_text eq_refl).
    + left. reflexivity.
    + intros s H. discriminate H.
  - apply (H8 [taf_record; metar_without_text] metar_without_text eq_refl).
    + right. left. reflexivity.
    + intros s H. discriminate H.
  - apply (H9 [notam_numeric_raw] notam_numeric_raw eq_refl).
    + left. reflexivity.
    + intros s H. vm_compute in H. discriminate H.
Defined.

(** C6, as stated, fails on NOTAMs: the category is present, and its text is
    not the [text] fields joined by two newlines, the first record
    contributing its [raw]. *)
Lemma notam_text_counterexample :
  dict_get (JStr "notam") cyyc_organized = Some [notam_raw; notam_plain]
  /\ has_text notam_raw (jtext "{'raw':'A1234/23 RWY CLOSED'}")
  /\ has_text notam_plain "plain text"
  /\ notam_text json_loads_ref cyyc_organized
     = Ok (String.concat (nl ++ nl)%string ["A1234/23 RWY CLOSED"; "plain text"])
  /\ notam_text json_loads_ref cyyc_organized
     <> Ok (String.concat (nl ++ nl)%string
              [jtext "{'raw':'A1234/23 RWY CLOSED'}"; "plain text"]).
Proof.
  repeat split; try (vm_compute; reflexivity).
  vm_compute. discriminate.
Qed.

(** ** The query *)

Lemma append_each_pairs (key : string) (value : list string) :
  forall query, append_each key value query = query ++ map (pair key) value.
Proof.
  induction value as [| v value IH]; intros query; simpl.
  - rewrite app_nil_r. reflexivity.
  - rewrite IH, <- app_assoc. reflexivity.
Qed.

(** C4.  The loop that builds the query turns each entry of [params] into
    its pairs, in order: a list value into one pair per element under the
    same key, a str into one pair.  For every code the query is the site,
    the eight [alpha] pairs, [notam_choice] and the token; its pairs under
    [alpha] are exactly one per category, so no pair holds the categories
    joined by commas. *)
Theorem query_repeats_list_params :
  (forall items query,
     build_query items query = query ++ flat_map pairs_of items)
  /\ (forall icao,
        query_params icao
        = [("site", icao);
           ("alpha", "sigmet"); ("alpha", "airmet"); ("alpha", "notam");
           ("alpha", "metar"); ("alpha", "taf"); ("alpha", "pirep");
           ("alpha", "upperwind"); ("alpha", "space_weather");
           ("notam_choice", "default"); ("_", "1756244240291")])
  /\ (forall icao,
        filter is_alpha (query_params icao) = map (pair "alpha") categories)
  /\ build_query [("alpha", PList ["metar"; "taf"])] []
     = [("alpha", "metar"); ("alpha", "taf")].
Proof.
  repeat split.
  induction items as [| [key value] items IH]; intros query; simpl.
  - rewrite app_nil_r. reflexivity.
  - rewrite IH. unfold pairs_of at 2. simpl.
    destruct value as [s | l].
    + rewrite <- app_assoc. reflexivity.
    + rewrite append_each_pairs, <- app_assoc. reflexivity.
Qed.

(** ** The batch *)

Lemma numbered_app (l1 l2 : list code) :
  forall n,
    numbered n (l1 ++ l2) = numbered n l1 ++ numbered (n + List.length l1) l2.
Proof.
  unfold numbered.
  induction l1 as [| c l1 IH]; intros n; simpl.
  - rewrite Nat.add_0_r. reflexivity.
  - rewrite IH, Nat.add_succ_r. reflexivity.
Qed.

Lemma numbered_length (n : nat) (l : list code) :
  List.length (numbered n l) = List.length l.
Proof.
  unfold numbered. rewrite length_combine, length_seq. lia.
Qed.

Section Batch.

Variable json_loads : string -> option json.
Variable requests_get : nat -> string -> list (string * string) -> res response.

Local Abbreviation fetch := (get_cfps_data json_loads requests_get).
Local Abbreviation attempt := (fetch_row json_loads requests_get).
Local Abbreviation batch := (process_batch json_loads requests_get).

Lemma fetch_row_fails (n : nat) (icao : code) (e : exn) :
  fetch n (py_str icao) = Raise e -> attempt n icao = Raise e.
Proof.
  intros H. unfold fetch_row. rewrite H. reflexivity.
Qed.

Lemma fetch_row_Ok (n : nat) (icao : code) (r : row) :
  attempt n icao = Ok r
  <-> exists data,
        fetch n (py_str icao) = Ok data
        /\ metar data = Ok (METAR r)
        /\ taf data = Ok (TAF r)
        /\ notam_text json_loads data = Ok (NOTAMs r)
        /\ ICAO r = icao.
Proof.
  unfold fetch_row. split.
  - intros H.
    destruct (fetch n (py_str icao)) as [data |]; [| discriminate].
    simpl in H. exists data.
    destruct (metar data) as [m |]; [| discriminate]. simpl in H.
    destruct (taf data) as [t |]; [| discriminate]. simpl in H.
    destruct (notam_text json_loads data) as [nt |]; [| discriminate].
    injection H as <-. repeat split.
  - intros (data & -> & Hm & Ht & Hn & Hi). simpl.
    rewrite Hm, Ht, Hn. simpl. destruct r. simpl in *. subst. reflexivity.
Qed.

Lemma fetch_row_ICAO (n : nat) (icao : code) (r : row) :
  attempt n icao = Ok r -> ICAO r = icao.
Proof.
  intros H. apply fetch_row_Ok in H. destruct H as (_ & _ & _ & _ & _ & H).
  exact H.
Qed.

Lemma process_batch_acc (icao_list : list code) :
  forall n results ui,
    batch n icao_list results ui
    = (results ++ flat_map (rows_of attempt) (numbered n icao_list),
       ui ++ flat_map (warnings_of attempt) (numbered n icao_list)).
Proof.
  unfold numbered.
  induction icao_list as [| icao rest IH]; intros n results ui; simpl.
  - rewrite !app_nil_r. reflexivity.
  - unfold rows_of at 1, warnings_of at 1. simpl.
    destruct (attempt n icao) as [r | e]; rewrite IH; simpl.
    + rewrite <- app_assoc. reflexivity.
    + rewrite <- app_assoc. reflexivity.
Qed.

Lemma batch_counts (l : list (nat * code)) :
  List.length (flat_map (rows_of attempt) l)
  + List.length (flat_map (warnings_of attempt) l) = List.length l.
Proof.
  induction l as [| p l IH]; simpl.
  - reflexivity.
  - rewrite !length_app. unfold rows_of at 1, warnings_of at 1.
    destruct (attempt (fst p) (snd p)); simpl; lia.
Qed.

Lemma batch_codes (l : list (nat * code)) :
  map ICAO (flat_map (rows_of attempt) l)
  = map snd (filter (fun p => succeeded (attempt (fst p) (snd p))) l).
Proof.
  induction l as [| p l IH]; simpl.
  - reflexivity.
  - unfold rows_of at 1.
    destruct (attempt (fst p) (snd p)) as [r | e] eqn:E; simpl.
    + rewrite IH, (fetch_row_ICAO _ _ _ E). reflexivity.
    + exact IH.
Qed.

(** C2.  The batch attempts every code of the list, each with a request of
    its own.  The results are the rows of the attempts that succeeded, in
    the order of the list, one per success and carrying its code; every
    attempt that raised left one warning naming its code and nothing in the
    results.  An attempt raises whenever its fetch raises, with the
    exception of the fetch, and succeeds exactly when the fetch and the
    three texts do, the row holding them.  A fetch that raises in the
    middle of the list leaves its warning between those of the codes before
    and after it, whose rows are all there: the batch goes on. *)
Theorem process_batch_skips_failures (icao_list : list code) :
  process_batch json_loads requests_get 0 icao_list [] []
  = (flat_map (rows_of attempt) (numbered 0 icao_list),
     flat_map (warnings_of attempt) (numbered 0 icao_list))
  /\ map ICAO (fst (batch 0 icao_list [] []))
     = map snd (filter (fun p => succeeded (attempt (fst p) (snd p)))
                       (numbered 0 icao_list))
  /\ List.length (fst (batch 0 icao_list [] []))
     + List.length (snd (batch 0 icao_list [] []))
     = List.length icao_list
  /\ (forall n icao e,
        get_cfps_data json_loads requests_get n (py_str icao) = Raise e ->
        fetch_row json_loads requests_get n icao = Raise e)
  /\ (forall n icao r,
        fetch_row json_loads requests_get n icao = Ok r
        <-> exists data,
              get_cfps_data json_loads requests_get n (py_str icao) = Ok data
              /\ metar data = Ok (METAR r)
              /\ taf data = Ok (TAF r)
              /\ notam_text json_loads data = Ok (NOTAMs r)
              /\ ICAO r = icao)
  /\ (forall l1 c l2 e,
        icao_list = l1 ++ c :: l2 ->
        get_cfps_data json_loads requests_get (List.length l1) (py_str c)
        = Raise e ->
        process_batch json_loads requests_get 0 icao_list [] []
        = (fst (batch 0 l1 [] []) ++ fst (batch (S (List.length l1)) l2 [] []),
           snd (batch 0 l1 [] [])
           ++ StWarning c e :: snd (batch (S (List.length l1)) l2 [] []))).
Proof.
  split; [| split; [| split; [| split; [| split]]]].
  - rewrite process_batch_acc. reflexivity.
  - rewrite process_batch_acc. simpl. apply batch_codes.
  - rewrite process_batch_acc. simpl. rewrite batch_counts.
    apply numbered_length.
  - apply fetch_row_fails.
  - apply fetch_row_Ok.
  - intros l1 c l2 e -> He.
    rewrite !process_batch_acc. simpl fst. simpl snd.
    rewrite numbered_app, !flat_map_app.
    change (numbered (0 + List.length l1) (c :: l2))
      with ((List.length l1, c) :: numbered (S (List.length l1)) l2).
    simpl flat_map. unfold rows_of at 2, warnings_of at 2. simpl fst. simpl snd.
    rewrite (fetch_row_fails _ _ _ He). reflexivity.
Qed.

End Batch.

Lemma process_batch_skips_failures_witness :
  process_batch json_loads_ref cyyc_only 0 [Str "CYYC"; Str "ZZZZ"] [] []
  = ([cyyc_row], [StWarning (Str "ZZZZ") (HTTPError 404)]).
Proof.
  destruct (process_batch_skips_failures json_loads_ref cyyc_only
              [Str "CYYC"; Str "ZZZZ"]) as (_ & _ & _ & _ & _ & H).
  rewrite (H [Str "CYYC"] (Str "ZZZZ") [] (HTTPError 404) eq_refl eq_refl).
  vm_compute. reflexivity.
Defined.

(** The batch of the specification: CYYC is served, ZZZZ is answered 404. *)
Example process_batch_cyyc_zzzz :
  process_batch json_loads_ref cyyc_only 0 [Str "CYYC"; Str "ZZZZ"] [] []
  = ([cyyc_row], [StWarning (Str "ZZZZ") (HTTPError 404)]).
Proof.
  vm_compute. reflexivity.
Qed.

(** A failure before a success: the success is still reached. *)
Example process_batch_zzzz_cyyc :
  process_batch json_loads_ref cyyc_only 0 [Str "ZZZZ"; Str "CYYC"] [] []
  = ([cyyc_row], [StWarning (Str "ZZZZ") (HTTPError 404)]).
Proof.
  vm_compute. reflexivity.
Qed.

(** ** The list of codes and the page *)

Lemma upper_value_strs (str_upper : string -> string) (l : list cell) (u : string) :
  List.length (filter (is_code u) (map (upper_value str_upper) (dropna l)))
  = List.length (filter (fun s => String.eqb (str_upper s) u) (strs l)).
Proof.
  induction l as [| v l IH]; simpl; [reflexivity |].
  destruct v as [| s |]; simpl; [exact IH | | exact IH].
  destruct (String.eqb (str_upper s) u); simpl; rewrite IH; reflexivity.
Qed.

Lemma upper_value_texts (str_upper : string -> string) (l : list cell) :
  Forall (fun v => v <> Other) l ->
  map (upper_value str_upper) (dropna l)
  = map (fun s => Str (str_upper s)) (strs l).
Proof.
  induction 1 as [| v l Hv _ IH]; simpl; [reflexivity |].
  destruct v as [| s |]; simpl; [exact IH | rewrite IH; reflexivity |].
  exfalso. apply Hv. reflexivity.
Qed.

Section Codes.

Variable json_loads : string -> option json.
Variable requests_get : nat -> string -> list (string * string) -> res response.
Variables read_csv read_excel : string -> res dataframe.
Variables str_upper str_strip : string -> string.
Variable to_excel : list row -> res string.

Local Abbreviation attempt := (fetch_row json_loads requests_get).
Local Abbreviation batch := (process_batch json_loads requests_get).
Local Abbreviation typed := (typed_codes str_upper str_strip).
Local Abbreviation codes :=
  (build_icao_list read_csv read_excel str_upper str_strip).
Local Abbreviation run :=
  (main json_loads requests_get read_csv read_excel str_upper str_strip to_excel).

Lemma build_icao_list_typed (text_input : string) :
  codes text_input None = (typed text_input, []).
Proof.
  reflexivity.
Qed.

(** C7.  With an upload that is read into a table whose ICAO column the
    [.str] accessor takes (it does when the column holds a str), the list
    of codes is the typed code, upper-cased and stripped, followed by the
    values of the column that are not missing, in order, each str
    upper-cased.  Nothing
    is merged: the list is as long as what was supplied, and an upper-case
    code occurs among the codes of the column as many times as strs of the
    column upper-case to it.  When the column holds only strs and missing
    cells, its part of the list is these strs, upper-cased. *)
Theorem icao_list_keeps_every_code
    (text_input : string) (f : uploaded) (df : dataframe) (col : series) :
  read_upload read_csv read_excel f = Ok df ->
  column "ICAO" df = Some col ->
  accepts_str col = true ->
  build_icao_list read_csv read_excel str_upper str_strip text_input (Some f)
  = (typed_codes str_upper str_strip text_input
     ++ map (upper_value str_upper) (dropna (cells col)), [])
  /\ List.length (fst (codes text_input (Some f)))
     = List.length (typed text_input) + List.length (dropna (cells col))
  /\ (forall u,
        List.length (filter (is_code u)
                       (map (upper_value str_upper) (dropna (cells col))))
        = List.length (filter (fun s => String.eqb (str_upper s) u)
                              (strs (cells col))))
  /\ (Forall (fun v => v <> Other) (cells col) ->
      map (upper_value str_upper) (dropna (cells col))
      = map (fun s => Str (str_upper s)) (strs (cells col))).
Proof.
  intros Hdf Hcol Hacc.
  assert (H : codes text_input (Some f)
              = (typed text_input
                 ++ map (upper_value str_upper) (dropna (cells col)), [])).
  { unfold build_icao_list, extend_from_upload, upper_tolist.
    rewrite Hdf, Hcol, Hacc. reflexivity. }
  rewrite H. simpl fst. repeat split.
  - rewrite length_app, length_map. reflexivity.
  - intros u. apply upper_value_strs.
  - apply upper_value_texts.
Qed.

Lemma warnings_are_not_errors (l : list (nat * code)) :
  filter is_error (flat_map (warnings_of attempt) l) = [].
Proof.
  induction l as [| p l IH]; simpl.
  - reflexivity.
  - rewrite filter_app, IH. unfold warnings_of.
    destruct (attempt (fst p) (snd p)); reflexivity.
Qed.

Lemma main_after (icao_list : list code) (ui : list st_event) :
  match icao_list with
  | [] => ui
  | _ :: _ =>
      let (results, ui') :=
        batch 0 icao_list [] (ui ++ [StWrite (List.length icao_list)]) in
      ui' ++ [StSubheader; StDataframe results]
          ++ match to_excel results with
             | Ok data => [StDownloadButton data]
             | Raise e => [StException e]
             end
  end
  = ui ++
    match icao_list with
    | [] => []
    | _ :: _ =>
        StWrite (List.length icao_list)
        :: flat_map (warnings_of attempt) (numbered 0 icao_list)
        ++ [StSubheader;
            StDataframe (flat_map (rows_of attempt) (numbered 0 icao_list))]
        ++ export_events to_excel
             (flat_map (rows_of attempt) (numbered 0 icao_list))
    end.
Proof.
  destruct icao_list as [| c l].
  - rewrite app_nil_r. reflexivity.
  - rewrite (process_batch_acc json_loads requests_get). cbv beta iota.
    rewrite <- !app_assoc. reflexivity.
Qed.

(** The run without an upload: nothing, or the page of the typed code. *)
Lemma run_without_upload (text_input : string) :
  run text_input None
  = match typed text_input with
    | [] => []
    | c :: _ => page_of_one (attempt 0 c) to_excel c
    end.
Proof.
  unfold main, build_icao_list, typed_codes, page_of_one, export_events.
  destruct (nonempty (str_strip (str_upper text_input))); [| reflexivity].
  simpl. destruct (attempt 0 (Str (str_strip (str_upper text_input))));
    reflexivity.
Qed.

Lemma run_without_upload_has_no_error (text_input : string) :
  filter is_error (run text_input None) = [].
Proof.
  rewrite run_without_upload. unfold page_of_one, export_events.
  destruct (typed text_input) as [| c l]; [reflexivity |].
  destruct (attempt 0 c) as [r | e]; simpl.
  - destruct (to_excel [r]); reflexivity.
  - destruct (to_excel []); reflexivity.
Qed.

Lemma run_after_upload_error
    (text_input : string) (f : uploaded) (ev : st_event) :
  codes text_input (Some f) = (typed text_input, [ev]) ->
  run text_input (Some f) = ev :: run text_input None.
Proof.
  intros H. unfold main. rewrite H, build_icao_list_typed.
  rewrite (main_after _ [ev]), (main_after _ []). reflexivity.
Qed.

(** C8.  With an upload that is read into a table without an ICAO column,
    the list of codes is the typed code alone and one error is shown.  The
    run is that error followed by the run without the upload, which is the
    page of the typed code: the announcement of one airport, the warning of
    its attempt or its row in the table, and the export.  The error is the
    only one on the page. *)
Theorem missing_column_is_not_fatal
    (text_input : string) (f : uploaded) (df : dataframe) :
  read_upload read_csv read_excel f = Ok df ->
  column "ICAO" df = None ->
  build_icao_list read_csv read_excel str_upper str_strip text_input (Some f)
  = (typed_codes str_upper str_strip text_input, [StError MissingColumn])
  /\ run text_input (Some f)
     = StError MissingColumn
       :: match typed_codes str_upper str_strip text_input with
          | [] => []
          | c :: _ =>
              page_of_one (fetch_row json_loads requests_get 0 c) to_excel c
          end
  /\ run text_input (Some f) = StError MissingColumn :: run text_input None
  /\ filter is_error (run text_input (Some f)) = [StError MissingColumn].
Proof.
  intros Hdf Hcol.
  assert (H : codes text_input (Some f)
              = (typed text_input, [StError MissingColumn])).
  { unfold build_icao_list, extend_from_upload. rewrite Hdf, Hcol. reflexivity. }
  pose proof (run_after_upload_error text_input f _ H) as Hrun.
  split; [exact H |].
  split; [rewrite Hrun, run_without_upload; reflexivity |].
  split; [exact Hrun |].
  rewrite Hrun. simpl. rewrite run_without_upload_has_no_error. reflexivity.
Qed.

End Codes.

Lemma icao_list_keeps_every_code_witness :
  build_icao_list (reads icao_table) no_reader ascii_upper ascii_strip
    " cyyc " (Some codes_csv)
  = ([Str "CYYC"; Str "CYYC"; Str "CYVR"; Str "CYYC"], [])
  /\ List.length
       (filter (is_code "CYYC")
          (fst (build_icao_list (reads icao_table) no_reader
                  ascii_upper ascii_strip " cyyc " (Some codes_csv))))
     = 3.
Proof.
  destruct (icao_list_keeps_every_code (reads icao_table) no_reader
              ascii_upper ascii_strip " cyyc " codes_csv icao_table
              {| cells := [Text "cyyc"; NA; Text "Cyvr"; Text "cyyc"];
                 others_ok := false |}
              eq_refl eq_refl eq_refl) as (H1 & _).
  split.
  - exact H1.
  - rewrite H1. reflexivity.
Defined.

Lemma missing_column_is_not_fatal_witness :
  build_icao_list (reads other_table) no_reader ascii_upper ascii_strip
    "cyyc" (Some codes_csv)
  = ([Str "CYYC"], [StError MissingColumn])
  /\ main json_loads_ref cyyc_only (reads other_table) no_reader
       ascii_upper ascii_strip (writes "xlsx") "cyyc" (Some codes_csv)
     = [StError MissingColumn; StWrite 1; StSubheader; StDataframe [cyyc_row];
        StDownloadButton "xlsx"].
Proof.
  destruct (missing_column_is_not_fatal json_loads_ref cyyc_only
              (reads other_table) no_reader ascii_upper ascii_strip
              (writes "xlsx") "cyyc" codes_csv other_table eq_refl eq_refl)
    as (H1 & H2 & _).
  split.
  - exact H1.
  - rewrite H2. vm_compute. reflexivity.
Defined.

(** The texts of the specification's examples. *)
Example json_loads_ref_examples :
  json_loads_ref (jtext "{'raw':'A1234/23 RWY CLOSED'}")
  = Some (JDict [("raw", JStr "A1234/23 RWY CLOSED")])
  /\ json_loads_ref "plain text" = None
  /\ json_loads_ref cyyc_body = Some (JDict cyyc_top)
  /\ json_loads_ref "[1, 2.5, -3e2, true, false, null]"
     = Some (JList [JInt 1; JFloat (5 # 2); JFloat (-300 # 1);
                    JBool true; JBool false; JNull])
  /\ json_loads_ref "[1,]" = None
  /\ json_loads_ref "01" = None.
Proof.
  repeat split; vm_compute; reflexivity.
Qed.

(** * Further properties of the script *)

(** ** Buckets exist for the types of the response only *)

Lemma dict_set_In (t k : json) (b c : list json) (d : organized_t) :
  In (k, b) (dict_set t c d) -> b = c \/ In (k, b) d.
Proof.
  induction d as [| [k' b'] d IH]; simpl.
  - intros [H | []]. injection H as _ <-. left. reflexivity.
  - destruct (key_eqb k' t); simpl.
    + intros [H | H]; [injection H as _ <-; left; reflexivity | right; right; exact H].
    + intros [H | H]; [right; left; exact H |].
      destruct (IH H) as [-> | Hin]; [left; reflexivity | right; right; exact Hin].
Qed.

Lemma dict_get_In (k : json) (b : list json) (d : organized_t) :
  dict_get k d = Some b -> exists k', In (k', b) d.
Proof.
  induction d as [| [k' b'] d IH]; simpl; [discriminate |].
  destruct (key_eqb k' k).
  - intros H. injection H as ->. exists k'. left. reflexivity.
  - intros H. destruct (IH H) as [k'' Hin]. exists k''. right. exact Hin.
Qed.

Lemma organize_loop_nonempty (items : list json) :
  forall d d', organize_loop items d = Ok d' ->
  (forall k b, In (k, b) d -> b <> []) ->
  forall k b, In (k, b) d' -> b <> [].
Proof.
  induction items as [| r items IH]; simpl; intros d d' H Hd.
  - injection H as <-. exact Hd.
  - destruct (organize_step d r) as [d1 | e] eqn:E; simpl in H; [| discriminate].
    destruct (organize_step_inv _ _ _ E) as (t & Et & Ht & ->).
    apply (IH _ _ H). intros k b Hin.
    destruct (dict_set_In _ _ _ _ _ Hin) as [-> | Hin'].
    + intros Habs. apply app_eq_nil in Habs. destruct Habs as [_ Habs].
      discriminate.
    + apply (Hd k b Hin').
Qed.

(** X1.  When the bucketing loop returns, no bucket of the mapping is empty,
    and a key is absent from the mapping exactly when the response has no
    record of that type. *)
Theorem buckets_only_for_present_types (items : list json) (org : organized_t) :
  organize items = Ok org ->
  (forall k b, In (k, b) org -> b <> [])
  /\ (forall k, dict_get k org = None <-> filter (type_is k) items = []).
Proof.
  intros H.
  assert (Hne : forall k b, In (k, b) org -> b <> []).
  { apply (organize_loop_nonempty items [] org H). intros k b []. }
  split; [exact Hne |].
  intros k. pose proof (organize_loop_buckets items [] org k H) as Hb.
  unfold dict_get_default in Hb. simpl in Hb. split.
  - intros Hnone. rewrite Hnone in Hb. symmetry. exact Hb.
  - intros Hnil. destruct (dict_get k org) as [b |] eqn:E; [| reflexivity].
    exfalso. destruct (dict_get_In k b org E) as [k' Hin].
    apply (Hne k' b Hin). rewrite Hb. exact Hnil.
Qed.

Lemma buckets_only_for_present_types_witness :
  (forall k b, In (k, b) cyyc_organized -> b <> [])
  /\ (forall k, dict_get k cyyc_organized = None
                <-> filter (type_is k) cyyc_items = []).
Proof.
  apply (buckets_only_for_present_types cyyc_items cyyc_organized).
  reflexivity.
Defined.
(** ** From the response to the row *)

Section Rows.

Variable json_loads : string -> option json.
Variable requests_get : nat -> string -> list (string * string) -> res response.

Local Abbreviation fetch := (get_cfps_data json_loads requests_get).
Local Abbreviation served_by := (served json_loads requests_get).
Local Abbreviation entry := (notam_entry json_loads).
Local Abbreviation attempt := (fetch_row json_loads requests_get).

(** A served request returns a mapping whose lookups are the filters of the
    response. *)
Lemma served_buckets (n : nat) (icao : string) (items : list json) :
  served_by n icao items ->
  exists org, fetch n icao = Ok org
              /\ forall c, dict_get_default (JStr c) org = of_type c items.
Proof.
  intros Hs. rewrite (get_cfps_data_served json_loads requests_get n icao items Hs).
  destruct Hs as (r & top & d & _ & _ & _ & _ & _ & Ht).
  destruct (organize_loop_typed items Ht []) as [org Horg].
  exists org. split; [exact Horg |].
  intros c. apply (organize_loop_buckets items [] org (JStr c) Horg).
Qed.

(** A NOTAM record without a str for its [text] has no str for its entry. *)
Lemma entry_needs_text (r : json) :
  (forall s, ~ has_text r s) -> forall s, entry r <> Ok (JStr s).
Proof.
  unfold has_text, notam_entry. intros Hr s.
  destruct (py_getitem r "text") as [v |] eqn:Ev; simpl; [| discriminate].
  destruct v as [| | | | t | |]; simpl; try discriminate.
  exfalso. apply (Hr t). reflexivity.
Qed.

(** X2.  For a served request whose METAR, TAF and NOTAM records have strs
    for their texts and entries, the row holds the code, the METAR texts and
    the TAF texts of the response, in its order, joined by a newline, and
    the NOTAM entries joined by two newlines; records of other types do not
    reach the row. *)
Theorem row_from_response
    (n : nat) (icao : code) (items : list json) (ms ts ns : list string) :
  served_by n (py_str icao) items ->
  Forall2 has_text (of_type "metar" items) ms ->
  Forall2 has_text (of_type "taf" items) ts ->
  Forall2 (fun r s => entry r = Ok (JStr s)) (of_type "notam" items) ns ->
  attempt n icao
  = Ok {| ICAO := icao;
          METAR := String.concat nl ms;
          TAF := String.concat nl ts;
          NOTAMs := String.concat (nl ++ nl)%string ns |}.
Proof.
  intros Hs Hm Ht Hn.
  destruct (served_buckets n (py_str icao) items Hs) as (org & Hf & Hb).
  unfold fetch_row, metar, taf, notam_text, notams, texts.
  rewrite Hf. simpl. rewrite !Hb.
  rewrite (mapM_Forall2 (fun m => py_getitem m "text") _ ms Hm). simpl.
  rewrite py_join_strs. simpl.
  rewrite (mapM_Forall2 (fun m => py_getitem m "text") _ ts Ht). simpl.
  rewrite py_join_strs. simpl.
  rewrite (mapM_Forall2 entry _ ns Hn). simpl.
  rewrite py_join_strs. reflexivity.
Qed.

(** X3.  A served request whose body holds no record gives a row with the
    code and three empty texts: no warning, no failure. *)
Theorem empty_response_gives_empty_row (n : nat) (icao : code) :
  served json_loads requests_get n (py_str icao) [] ->
  fetch_row json_loads requests_get n icao
  = Ok {| ICAO := icao; METAR := ""; TAF := ""; NOTAMs := "" |}.
Proof.
  intros Hs. unfold fetch_row.
  rewrite (get_cfps_data_served json_loads requests_get n (py_str icao) [] Hs).
  reflexivity.
Qed.

(** X4.  One METAR, TAF or NOTAM record of a served response without a str
    for its [text] (the field missing, or holding another value) makes the
    whole attempt raise: the airport gets no row, its other texts are
    lost with it. *)
Theorem record_without_text_fails_the_airport
    (n : nat) (icao : code) (items : list json) (c : string) (r : json) :
  served_by n (py_str icao) items ->
  c = "metar" \/ c = "taf" \/ c = "notam" ->
  In r (of_type c items) ->
  (forall s, ~ has_text r s) ->
  exists e, attempt n icao = Raise e.
Proof.
  intros Hs Hc Hin Hr.
  destruct (served_buckets n (py_str icao) items Hs) as (org & Hf & Hb).
  unfold fetch_row, metar, taf, notam_text, notams, texts.
  rewrite Hf, bind_Ok. cbv beta. rewrite !Hb.
  assert (Hr' : forall s, py_getitem r "text" <> Ok (JStr s)).
  { intros s H. apply (Hr s H). }
  destruct Hc as [-> | [-> | ->]].
  - apply bind_raises.
    apply (join_fails (fun m => py_getitem m "text") nl _ r Hin Hr').
  - apply bind_raises_later. intros m0. apply bind_raises.
    apply (join_fails (fun m => py_getitem m "text") nl _ r Hin Hr').
  - apply bind_raises_later. intros m0.
    apply bind_raises_later. intros t0. apply bind_raises.
    apply (join_fails entry (nl ++ nl)%string _ r Hin (entry_needs_text r Hr)).
Qed.

(** X5.  A NOTAM record whose text decodes to an object with a [raw] that is
    not a str (a number, say) makes the NOTAM text raise: the value is
    appended as it is, and the join refuses it. *)
Theorem raw_not_a_string_fails_the_join
    (data : organized_t) (b : list json) (r : json)
    (t : string) (o : list (string * json)) (v : json) :
  dict_get (JStr "notam") data = Some b ->
  In r b ->
  has_text r t ->
  json_loads t = Some (JDict o) ->
  assoc "raw" o = Some v ->
  (forall s, v <> JStr s) ->
  entry r = Ok v
  /\ exists e, notam_text json_loads data = Raise e.
Proof.
  intros Hb Hin Ht Hj Hraw Hv.
  assert (He : entry r = Ok v).
  { unfold has_text in Ht. unfold notam_entry. rewrite Ht. simpl.
    rewrite Hj. simpl. rewrite Hraw. reflexivity. }
  split; [exact He |].
  unfold notam_text, notams, dict_get_default. rewrite Hb.
  apply (join_fails entry (nl ++ nl)%string b r Hin).
  intros s H. rewrite He in H. injection H as ->. apply (Hv s). reflexivity.
Qed.

End Rows.

Lemma row_from_response_witness :
  fetch_row json_loads_ref cyyc_only 0 (Str "CYYC")
  = Ok {| ICAO := Str "CYYC";
          METAR := String.concat nl ["METAR CYYC 011800Z 27010KT";
                                     "METAR CYYC 011700Z 26008KT"];
          TAF := String.concat nl ["TAF CYYC 011740Z"];
          NOTAMs := String.concat (nl ++ nl)%string
                      ["A1234/23 RWY CLOSED"; "plain text"] |}.
Proof.
  apply (row_from_response json_loads_ref cyyc_only 0 (Str "CYYC") cyyc_items).
  - exact served_cyyc.
  - repeat constructor.
  - repeat constructor.
  - repeat constructor.
Defined.

Lemma empty_response_gives_empty_row_witness :
  fetch_row json_loads_ref (reply 200 no_records_body) 0 (Str "CYZZ")
  = Ok {| ICAO := Str "CYZZ"; METAR := ""; TAF := ""; NOTAMs := "" |}.
Proof.
  apply (empty_response_gives_empty_row json_loads_ref (reply 200 no_records_body)).
  exists {| status_code := 200; body := no_records_body |},
         [("data", JList [])], (JList []).
  split; [reflexivity |].
  split; [left; simpl; lia |].
  split; [vm_compute; reflexivity |].
  split; [reflexivity |].
  split; [left; reflexivity |].
  constructor.
Defined.

Lemma record_without_text_fails_the_airport_witness :
  exists e,
    fetch_row json_loads_ref (reply 200 metar_without_text_body) 0 (Str "CYYC")
    = Raise e.
Proof.
  apply (record_without_text_fails_the_airport json_loads_ref
           (reply 200 metar_without_text_body) 0 (Str "CYYC")
           [taf_record; metar_without_text] "metar" metar_without_text).
  - exists {| status_code := 200; body := metar_without_text_body |},
           [("data", JList [taf_record; metar_without_text])],
           (JList [taf_record; metar_without_text]).
    split; [reflexivity |].
    split; [left; simpl; lia |].
    split; [vm_compute; reflexivity |].
    split; [reflexivity |].
    split; [left; reflexivity |].
    repeat constructor.
  - left. reflexivity.
  - simpl. left. reflexivity.
  - intros s H. discriminate H.
Defined.

Lemma raw_not_a_string_fails_the_join_witness :
  notam_entry json_loads_ref notam_numeric_raw = Ok (JInt 5)
  /\ exists e,
       notam_text json_loads_ref [(JStr "notam", [notam_numeric_raw])] = Raise e.
Proof.
  apply (raw_not_a_string_fails_the_join json_loads_ref
           [(JStr "notam", [notam_numeric_raw])] [notam_numeric_raw]
           notam_numeric_raw (jtext "{'raw': 5}") [("raw", JInt 5)] (JInt 5)).
  - reflexivity.
  - left. reflexivity.
  - reflexivity.
  - vm_compute. reflexivity.
  - reflexivity.
  - intros s. discriminate.
Defined.

(** ** The batch and the page *)

Lemma warned_codes_app (a b : list st_event) :
  warned_codes (a ++ b) = warned_codes a ++ warned_codes b.
Proof.
  induction a as [| e a IH]; simpl; [reflexivity |].
  destruct e; simpl; rewrite IH; reflexivity.
Qed.

Section Page.

Variable json_loads : string -> option json.
Variable requests_get : nat -> string -> list (string * string) -> res response.
Variables read_csv read_excel : string -> res dataframe.
Variables str_upper str_strip : string -> string.
Variable to_excel : list row -> res string.

Local Abbreviation attempt := (fetch_row json_loads requests_get).
Local Abbreviation batch := (process_batch json_loads requests_get).
Local Abbreviation typed := (typed_codes str_upper str_strip).
Local Abbreviation codes :=
  (build_icao_list read_csv read_excel str_upper str_strip).
Local Abbreviation run :=
  (main json_loads requests_get read_csv read_excel str_upper str_strip to_excel).

Lemma accounted (l : list code) :
  forall n,
    Permutation
      (map ICAO (flat_map (rows_of attempt) (numbered n l))
       ++ warned_codes (flat_map (warnings_of attempt) (numbered n l)))
      l.
Proof.
  unfold numbered.
  induction l as [| c l IH]; intros n; simpl; [constructor |].
  unfold rows_of at 1, warnings_of at 1. simpl.
  destruct (attempt n c) as [r | e] eqn:E; simpl.
  - rewrite (fetch_row_ICAO json_loads requests_get n c r E).
    constructor. apply IH.
  - apply Permutation_sym, Permutation_cons_app, Permutation_sym, IH.
Qed.

(** X6.  No code of the list disappears in the batch: the codes of the rows
    together with the codes named by the warnings are the list, up to
    order, each as often as it was given. *)
Theorem every_code_is_a_row_or_a_warning (icao_list : list code) :
  Permutation
    (map ICAO (fst (batch 0 icao_list [] []))
     ++ warned_codes (snd (batch 0 icao_list [] [])))
    icao_list.
Proof.
  rewrite (process_batch_acc json_loads requests_get). simpl. apply accounted.
Qed.

(** X7.  A batch over two lists in a row is the batch over the first
    followed by the batch over the second, which starts from the results,
    the page and the request number the first one left. *)
Theorem process_batch_app (l1 l2 : list code) :
  forall n results ui,
    process_batch json_loads requests_get n (l1 ++ l2) results ui
    = process_batch json_loads requests_get (n + List.length l1) l2
        (fst (batch n l1 results ui)) (snd (batch n l1 results ui)).
Proof.
  induction l1 as [| c l1 IH]; intros n results ui; simpl.
  - rewrite Nat.add_0_r. reflexivity.
  - rewrite Nat.add_succ_r.
    destruct (attempt n c) as [r | e]; rewrite IH; reflexivity.
Qed.

(** X8.  When at least one code is supplied, the page is: the errors of the
    upload, the announcement of the number of codes, the warnings of the
    batch, the sub-header and the table of the batch's rows (also when
    there is none), and then what the writer gives for these same rows:
    the download button with the written bytes, or, when the writer
    raises, its exception and no button.  The announced number is the
    number of rows plus the number of warnings. *)
Theorem page_ends_with_table_and_export
    (text_input : string) (uploaded_file : option uploaded)
    (c : code) (l : list code) :
  fst (codes text_input uploaded_file) = c :: l ->
  run text_input uploaded_file
  = snd (codes text_input uploaded_file)
    ++ StWrite (S (List.length l))
    :: snd (batch 0 (c :: l) [] [])
    ++ [StSubheader; StDataframe (fst (batch 0 (c :: l) [] []))]
    ++ export_events to_excel (fst (batch 0 (c :: l) [] []))
  /\ List.length (fst (batch 0 (c :: l) [] []))
     + List.length (snd (batch 0 (c :: l) [] []))
     = S (List.length l).
Proof.
  intros H. unfold main.
  destruct (codes text_input uploaded_file) as [icao_list ui].
  simpl in H. subst icao_list. split.
  - rewrite (main_after json_loads requests_get to_excel (c :: l) ui).
    rewrite (process_batch_acc json_loads requests_get (c :: l) 0 [] []).
    reflexivity.
  - rewrite (process_batch_acc json_loads requests_get (c :: l) 0 [] []).
    change (List.length (flat_map (rows_of attempt) (numbered 0 (c :: l)))
            + List.length (flat_map (warnings_of attempt) (numbered 0 (c :: l)))
            = List.length (c :: l)).
    rewrite (batch_counts json_loads requests_get).
    apply numbered_length.
Qed.

(** X10.  When reading the upload raises, the exception is shown in one
    error and the upload gives no code.  The run is that error followed by
    the run without the upload, which is the page of the typed code: the
    announcement of one airport, the warning of its attempt or its row in
    the table, and the export.  The error is the only one on the page. *)
Theorem upload_read_failure_is_not_fatal
    (text_input : string) (f : uploaded) (e : exn) :
  read_upload read_csv read_excel f = Raise e ->
  build_icao_list read_csv read_excel str_upper str_strip text_input (Some f)
  = (typed_codes str_upper str_strip text_input, [StError (ReadFailed e)])
  /\ run text_input (Some f)
     = StError (ReadFailed e)
       :: match typed_codes str_upper str_strip text_input with
          | [] => []
          | c :: _ =>
              page_of_one (fetch_row json_loads requests_get 0 c) to_excel c
          end
  /\ run text_input (Some f) = StError (ReadFailed e) :: run text_input None
  /\ filter is_error (run text_input (Some f)) = [StError (ReadFailed e)].
Proof.
  intros Hr.
  assert (H : codes text_input (Some f)
              = (typed text_input, [StError (ReadFailed e)])).
  { unfold build_icao_list, extend_from_upload. rewrite Hr. reflexivity. }
  pose proof (run_after_upload_error json_loads requests_get read_csv read_excel
                str_upper str_strip to_excel text_input f _ H) as Hrun.
  split; [exact H |].
  split; [rewrite Hrun, run_without_upload; reflexivity |].
  split; [exact Hrun |].
  rewrite Hrun. simpl. rewrite run_without_upload_has_no_error. reflexivity.
Qed.

(** X12.  When the table has an ICAO column that the [.str] accessor
    refuses (no str in it, and numbers only, or every cell missing), the
    upload
    gives no code and the AttributeError is shown in one error, the one of
    a failed read; the run is that error followed by the run without the
    upload, the page of the typed code. *)
Theorem column_without_strings_is_a_read_error
    (text_input : string) (f : uploaded) (df : dataframe) (col : series) :
  read_upload read_csv read_excel f = Ok df ->
  column "ICAO" df = Some col ->
  accepts_str col = false ->
  build_icao_list read_csv read_excel str_upper str_strip text_input (Some f)
  = (typed_codes str_upper str_strip text_input,
     [StError (ReadFailed AttributeError)])
  /\ run text_input (Some f)
     = StError (ReadFailed AttributeError)
       :: match typed_codes str_upper str_strip text_input with
          | [] => []
          | c :: _ =>
              page_of_one (fetch_row json_loads requests_get 0 c) to_excel c
          end
  /\ filter is_error (run text_input (Some f))
     = [StError (ReadFailed AttributeError)].
Proof.
  intros Hdf Hcol Hacc.
  assert (H : codes text_input (Some f)
              = (typed text_input, [StError (ReadFailed AttributeError)])).
  { unfold build_icao_list, extend_from_upload, upper_tolist.
    rewrite Hdf, Hcol, Hacc. reflexivity. }
  pose proof (run_after_upload_error json_loads requests_get read_csv read_excel
                str_upper str_strip to_excel text_input f _ H) as Hrun.
  split; [exact H |].
  split; [rewrite Hrun, run_without_upload; reflexivity |].
  rewrite Hrun. simpl. rewrite run_without_upload_has_no_error. reflexivity.
Qed.

End Page.

Lemma page_ends_with_table_and_export_witness :
  main json_loads_ref cyyc_only (reads icao_table) no_reader
    ascii_upper ascii_strip (writes "xlsx") " cyyc " (Some codes_csv)
  = [StWrite 4; StWarning (Str "CYVR") (HTTPError 404); StSubheader;
     StDataframe [cyyc_row; cyyc_row; cyyc_row]; StDownloadButton "xlsx"].
Proof.
  destruct (page_ends_with_table_and_export json_loads_ref cyyc_only
              (reads icao_table) no_reader ascii_upper ascii_strip
              (writes "xlsx") " cyyc " (Some codes_csv)
              (Str "CYYC") [Str "CYYC"; Str "CYVR"; Str "CYYC"] eq_refl)
    as [H _].
  rewrite H. vm_compute. reflexivity.
Defined.

Lemma upload_read_failure_is_not_fatal_witness :
  build_icao_list no_reader no_reader ascii_upper ascii_strip
    "cyyc" (Some codes_csv)
  = ([Str "CYYC"], [StError (ReadFailed ReadError)])
  /\ main json_loads_ref cyyc_only no_reader no_reader
       ascii_upper ascii_strip (writes "xlsx") "cyyc" (Some codes_csv)
     = [StError (ReadFailed ReadError); StWrite 1; StSubheader;
        StDataframe [cyyc_row]; StDownloadButton "xlsx"].
Proof.
  destruct (upload_read_failure_is_not_fatal json_loads_ref cyyc_only
              no_reader no_reader ascii_upper ascii_strip (writes "xlsx")
              "cyyc" codes_csv ReadError eq_refl) as (H1 & H2 & _).
  split.
  - exact H1.
  - rewrite H2. vm_compute. reflexivity.
Defined.

Lemma column_without_strings_is_a_read_error_witness :
  build_icao_list (reads blank_table) no_reader ascii_upper ascii_strip
    "cyyc" (Some codes_csv)
  = ([Str "CYYC"], [StError (ReadFailed AttributeError)])
  /\ main json_loads_ref cyyc_only (reads blank_table) no_reader
       ascii_upper ascii_strip (writes "xlsx") "cyyc" (Some codes_csv)
     = [StError (ReadFailed AttributeError); StWrite 1; StSubheader;
        StDataframe [cyyc_row]; StDownloadButton "xlsx"].
Proof.
  destruct (column_without_strings_is_a_read_error json_loads_ref cyyc_only
              (reads blank_table) no_reader ascii_upper ascii_strip
              (writes "xlsx") "cyyc" codes_csv blank_table
              {| cells := [NA; NA]; others_ok := false |}
              eq_refl eq_refl eq_refl) as (H1 & H2 & _).
  split.
  - exact H1.
  - rewrite H2. vm_compute. reflexivity.
Defined.
